(** * klados-server: the relay and database proxy of [src/index.js]

    A shallow embedding of the Express application: JavaScript values,
    the outbound calls a handler can make, handlers as programs over
    those calls, and a runner that threads an arbitrary backend through
    a program and records every call together with its reply. *)

From stdpp Require Import gmap strings list fin_maps pretty.
From Stdlib Require Import ZArith Ascii.

Set Warnings "-register-all".
Local Open Scope Z_scope.

(** ** JavaScript values

    Parsed JSON plus [undefined].  Numbers are the integers the code
    handles (HTTP statuses, array lengths); a string is a sequence of
    one-byte characters.  An object is a finite map from property
    names to values: the code never depends on property order. *)

Inductive value : Type :=
| VUndefined
| VNull
| VBool (b : bool)
| VNum (n : Z)
| VStr (s : string)
| VArr (items : list value)
| VObj (fields : gmap string value).

(** Truthiness, as used by [!x], [x || y], [x ? a : b] and [if (x)]. *)
Definition truthy (v : value) : bool :=
  match v with
  | VUndefined | VNull => false
  | VBool b => b
  | VNum n => negb (n =? 0)
  | VStr s => negb (String.eqb s "")
  | VArr _ | VObj _ => true
  end.

(** [a || b] *)
Definition js_or (a b : value) : value := if truthy a then a else b.

(** [o.k] on an object: [undefined] when the property is absent. *)
Definition field (o : gmap string value) (k : string) : value :=
  default VUndefined (o !! k).

(** [${v}] inside a template literal. *)
Fixpoint display (v : value) : string :=
  match v with
  | VUndefined => "undefined"
  | VNull => "null"
  | VBool true => "true"
  | VBool false => "false"
  | VNum n => pretty n
  | VStr s => s
  | VArr items =>
      (fix join (l : list value) : string :=
         match l with
         | [] => ""
         | x :: rest =>
             let shown := match x with
                          | VUndefined | VNull => ""
                          | _ => display x
                          end in
             match rest with
             | [] => shown
             | _ => shown +:+ "," +:+ join rest
             end
         end) items
  | VObj _ => "[object Object]"
  end.

(** [s.split(sep)] for a one-character separator. *)
Fixpoint split (sep : Ascii.ascii) (s : string) : list string :=
  match s with
  | EmptyString => [EmptyString]
  | String c rest =>
      if Ascii.eqb c sep then EmptyString :: split sep rest
      else match split sep rest with
           | seg :: segs => String c seg :: segs
           | [] => [String c EmptyString]
           end
  end.

(** ** Errors and settled promises *)

Module Axios.
(** What the code reads of an axios response, and of the request
    configuration it passes to [axios.post]. *)
Record response := { status : Z; data : value }.
Record config := { headers : list (string * string); responseType : string }.
End Axios.

(** What the code reads of a thrown or returned error object:
    [error.message], and [error.response] for axios failures. *)
Record js_error := {
  message : value;
  response : option Axios.response
}.

(** A [TypeError] raised by the engine itself. *)
Definition TypeError (msg : string) : js_error :=
  {| message := VStr msg; response := None |}.

(** The two ways an awaited promise settles. *)
Inductive settled (X : Type) : Type :=
| Fulfilled (x : X)
| Rejected (e : js_error).
Arguments Fulfilled {X} x.
Arguments Rejected {X} e.

(** ** The Supabase client surface used by the code *)

Module Supabase.
(** [createClient(url, key, { global: { headers: { Authorization } } })] *)
Record client := {
  supabaseUrl : string;
  supabaseKey : string;
  Authorization : option string
}.

(** [.eq(column, v)] and [.in(column, vs)] *)
Inductive filter :=
| eq (column : string) (v : value)
| in_ (column : string) (vs : list value).

(** [.order(column, { ascending })] *)
Record order := { column : string; ascending : bool }.

(** [{ data: { user }, error }] of [auth.getUser()] *)
Record user_reply := { user : option (gmap string value); auth_error : option js_error }.

(** [{ data, error }] of a query *)
Record reply (D : Type) := { data : D; error : option js_error }.
Arguments data {D} r.
Arguments error {D} r.
End Supabase.

(** [response.text] of the Gemini SDK *)
Record generate_reply := { text : value }.

(** ** Outbound calls

    Every interaction of a handler with the world outside the process:
    the identity backend, the data backend, the three providers, the
    clock and the console. *)

Inductive op : Type :=
| getUser (c : Supabase.client)
| select (c : Supabase.client) (table columns : string)
    (filters : list Supabase.filter) (ord : option Supabase.order)
| insert (c : Supabase.client) (table : string) (payload : gmap string value)
| update (c : Supabase.client) (table : string) (payload : gmap string value)
    (where_ : Supabase.filter)
| delete_ (c : Supabase.client) (table : string) (where_ : Supabase.filter)
| toISOString
| axios_post (url : string) (body : gmap string value) (cfg : Axios.config)
| openai_create (params : gmap string value)
| generateContent (params : gmap string value)
| console_log (args : list value)
| console_error (args : list value).

(** The type of what each call yields. *)
Definition reply (o : op) : Type :=
  match o with
  | getUser _ => settled Supabase.user_reply
  | select _ _ _ _ _ => settled (Supabase.reply (option (list (gmap string value))))
  | insert _ _ _ => settled (Supabase.reply value)
  | update _ _ _ _ => settled (Supabase.reply value)
  | delete_ _ _ _ => settled (Supabase.reply value)
  | toISOString => string
  | axios_post _ _ _ => settled Axios.response
  | openai_create _ => settled value
  | generateContent _ => settled generate_reply
  | console_log _ => unit
  | console_error _ => unit
  end.

(** Calls that reach the identity backend or the data backend. *)
Definition is_backend_call (o : op) : bool :=
  match o with
  | getUser _ | select _ _ _ _ _ | insert _ _ _ | update _ _ _ _ | delete_ _ _ _ => true
  | _ => false
  end.

(** Calls that reach the data backend. *)
Definition is_data_operation (o : op) : bool :=
  match o with
  | select _ _ _ _ _ | insert _ _ _ | update _ _ _ _ | delete_ _ _ _ => true
  | _ => false
  end.

(** ** Programs

    A handler is a finite tree: it returns, throws, or makes a call and
    continues with the reply. *)

Inductive prog (A : Type) : Type :=
| Ret (a : A)
| Throw (e : js_error)
| Vis (o : op) (k : reply o → prog A).
Arguments Ret {A} a.
Arguments Throw {A} e.
Arguments Vis {A} o k.

Fixpoint bind {A B : Type} (p : prog A) (f : A → prog B) : prog B :=
  match p with
  | Ret a => f a
  | Throw e => Throw e
  | Vis o k => Vis o (λ r, bind (k r) f)
  end.

#[global] Instance prog_ret : MRet prog := @Ret.
#[global] Instance prog_bind : MBind prog := λ A B f p, bind p f.

(** [try { p } catch (error) { h error }] *)
Fixpoint try_catch {A : Type} (p : prog A) (h : js_error → prog A) : prog A :=
  match p with
  | Ret a => Ret a
  | Throw e => h e
  | Vis o k => Vis o (λ r, try_catch (k r) h)
  end.

(** [await promise]: the value, or the rejection thrown. *)
Definition await {X : Type} (s : settled X) : prog X :=
  match s with
  | Fulfilled x => Ret x
  | Rejected e => Throw e
  end.

(** A call that does not return a promise. *)
Definition call (o : op) : prog (reply o) := Vis o Ret.

(** [if (error) throw error;] *)
Definition throw_if (e : option js_error) : prog unit :=
  match e with
  | Some err => Throw err
  | None => Ret tt
  end.

(** ** Running a program against a backend

    The world outside is any state type [W] with any reply function.
    The runner records each call with the reply it got. *)

Inductive event : Type := Ev (o : op) (r : reply o).

Definition ev_op (ev : event) : op := match ev with Ev o _ => o end.

Inductive outcome (A : Type) : Type :=
| Returned (a : A)
| Uncaught (e : js_error).
Arguments Returned {A} a.
Arguments Uncaught {A} e.

Section Run.
Context {W : Type} (respond : ∀ o : op, W → reply o * W).

Fixpoint run {A : Type} (p : prog A) (w : W) : list event * W * outcome A :=
  match p with
  | Ret a => ([], w, Returned a)
  | Throw e => ([], w, Uncaught e)
  | Vis o k =>
      let '(r, w1) := respond o w in
      let '(tr, w2, out) := run (k r) w1 in
      (Ev o r :: tr, w2, out)
  end.
End Run.

(** The calls of a trace, in order, and those that reach a backend. *)
Definition calls (tr : list event) : list op := ev_op <$> tr.
Definition backend_calls (tr : list event) : list op :=
  filter (λ o, is_backend_call o = true) (calls tr).
Definition data_operations (tr : list event) : list op :=
  filter (λ o, is_data_operation o = true) (calls tr).

(** ** Express requests and responses *)

(** The environment variables the handlers read.  [createClient] at
    module load throws unless both Supabase variables are non-empty
    strings, so a running server has them; the OpenRouter key may be
    unset. *)
Record env := {
  OPENROUTER_API_KEY : value;
  SUPABASE_URL : string;
  SUPABASE_KEY : string
}.

Module Express.
(** [req.headers.authorization], [req.params.id] and [req.body] as
    parsed by [express.json]. *)
Record request := {
  authorization : option string;
  id : string;
  body : gmap string value
}.

(** What [res.json], [res.send] or [stream.pipe(res)] delivers. *)
Inductive sent :=
| json (v : value)
| send (s : string)
| pipe (upstream : value).

Record http_response := {
  status : Z;
  headers : list (string * string);
  payload : sent
}.

(** [res.status(code).json(v)] *)
Definition status_json (code : Z) (v : value) : http_response :=
  {| status := code; headers := []; payload := json v |}.

(** [res.json(v)]: status 200 unless set. *)
Definition res_json (v : value) : http_response := status_json 200 v.

(** The request after [authenticateUser] attached [req.userClient]
    and [req.user]. *)
Record authenticated := {
  req : request;
  userClient : Supabase.client;
  user : gmap string value
}.
End Express.

Import Express.

(** [{ error: v }] *)
Definition error_body (v : value) : value := VObj {[ "error" := v ]}.

(** [{ success: true }] *)
Definition success_body : value := VObj {[ "success" := VBool true ]}.

(** A row array, or [null], as a value. *)
Definition rows_value (rows : option (list (gmap string value))) : value :=
  match rows with
  | Some l => VArr (VObj <$> l)
  | None => VNull
  end.

(** [rows.prop] or [rows.method(...)] on a query result: a
    [TypeError] when the result is [null]. *)
Definition deref (rows : option (list (gmap string value))) (prop : string)
  : prog (list (gmap string value)) :=
  match rows with
  | Some l => Ret l
  | None => Throw (TypeError ("Cannot read properties of null (reading '" +:+ prop +:+ "')"))
  end.

(** [...v] inside an array literal: arrays and strings are iterable. *)
Definition spread (v : value) : prog (list value) :=
  match v with
  | VArr items => Ret items
  | VStr s => Ret ((λ c, VStr (String c EmptyString)) <$> String.list_ascii_of_string s)
  | _ => Throw (TypeError "(intermediate value) is not iterable")
  end.

(** ** AI provider relays (index.js 35-101) *)

(** [POST /api/openrouter/chat] *)
Definition openrouter_chat (e : env) (req : request) : prog http_response :=
  try_catch
    (let model := field (body req) "model" in
     let messages := field (body req) "messages" in
     let stream := field (body req) "stream" in
     response ← call (axios_post "https://openrouter.ai/api/v1/chat/completions"
         {[ "model" := model; "messages" := messages;
            "stream" := js_or stream (VBool false) ]}
         {| Axios.headers :=
              [("Authorization", "Bearer " +:+ display (OPENROUTER_API_KEY e));
               ("Content-Type", "application/json")];
            Axios.responseType := if truthy stream then "stream" else "json" |})
       ≫= await;
     if truthy stream then
       Ret {| status := 200;
              headers := [("Content-Type", "text/event-stream");
                          ("Cache-Control", "no-cache");
                          ("Connection", "keep-alive")];
              payload := pipe (Axios.data response) |}
     else
       Ret (res_json (Axios.data response)))
    (λ error,
       _ ← call (console_error
             [VStr "OpenRouter Error:";
              js_or (from_option Axios.data VUndefined (response error)) (message error)]);
       Ret (status_json
              (match response error with
               | Some r => if Axios.status r =? 0 then 500 else Axios.status r
               | None => 500
               end)
              (error_body (VStr "Failed to fetch from OpenRouter")))).

(** [POST /api/openai/chat] *)
Definition openai_chat (req : request) : prog http_response :=
  try_catch
    (let model := field (body req) "model" in
     let messages := field (body req) "messages" in
     completion ← call (openai_create {[ "model" := model; "messages" := messages ]})
       ≫= await;
     Ret (res_json completion))
    (λ error,
       _ ← call (console_error [VStr "OpenAI Error:"; message error]);
       Ret (status_json 500 (error_body (VStr "Failed to fetch from OpenAI")))).

(** [POST /api/gemini/generate] *)
Definition gemini_generate (req : request) : prog http_response :=
  try_catch
    (let modelName := field (body req) "model" in
     let prompt := field (body req) "prompt" in
     let history := field (body req) "history" in
     let files := field (body req) "files" in
     entries ← spread (js_or history (VArr []));
     response ← call (generateContent
         {[ "model" := js_or modelName (VStr "gemini-1.5-flash");
            "contents" :=
              VArr (entries ++
                    [VObj {[ "role" := VStr "user";
                             "parts" := VArr [VObj {[ "text" := prompt ]}] ]}]) ]})
       ≫= await;
     Ret (res_json (VObj {[ "text" := text response ]})))
    (λ error,
       _ ← call (console_error [VStr "Gemini Error:"; message error]);
       Ret (status_json 500 (error_body (VStr "Failed to fetch from Gemini")))).

(** ** The auth guard (index.js 111-141) *)

(** [createClient(url, key, { global: { headers: { Authorization } } })] *)
Definition createClient (url key : string) (auth : option string) : Supabase.client :=
  {| Supabase.supabaseUrl := url; Supabase.supabaseKey := key;
     Supabase.Authorization := auth |}.

(** [req.headers.authorization?.split(' ')[1]] *)
Definition bearer_token (req : request) : value :=
  match authorization req with
  | None => VUndefined
  | Some header =>
      match split " "%char header !! 1%nat with
      | Some t => VStr t
      | None => VUndefined
      end
  end.

(** The middleware either answers itself ([inl]) or calls [next()]
    with the request extended ([inr]).  The handler behind [next()] is
    asynchronous, so what it throws never reaches this [catch]. *)
Definition authenticateUser (e : env) (req : request)
  : prog (http_response + authenticated) :=
  let token := bearer_token req in
  if negb (truthy token) then
    _ ← call (console_log [VStr "[AUTH] No token provided"]);
    Ret (inl (status_json 401 (error_body (VStr "Unauthorized"))))
  else
    try_catch
      (let userClient :=
         createClient (SUPABASE_URL e) (SUPABASE_KEY e)
                      (Some ("Bearer " +:+ display token)) in
       r ← call (getUser userClient) ≫= await;
       match Supabase.auth_error r, Supabase.user r with
       | None, Some user =>
           Ret (inr {| req := req; userClient := userClient; user := user |})
       | error, _ =>
           _ ← call (console_error
                 [VStr "[AUTH] Token invalid:"; from_option message VUndefined error]);
           Ret (inl (status_json 401 (error_body (VStr "Invalid token"))))
       end)
      (λ err,
         _ ← call (console_error [VStr "[AUTH] Auth system error:"; message err]);
         Ret (inl (status_json 500 (error_body (VStr "Internal Auth Error"))))).

(** [app.METHOD(path, authenticateUser, handler)] *)
Definition with_auth (e : env) (handler : authenticated → prog http_response)
    (req : request) : prog http_response :=
  r ← authenticateUser e req;
  match r with
  | inl res => Ret res
  | inr areq => handler areq
  end.

(** [catch (error) { res.status(500).json({ error: error.message }) }] *)
Definition relay_error (error : js_error) : prog http_response :=
  Ret (status_json 500 (error_body (message error))).

(** ** Resource proxy handlers (index.js 145-292) *)

(** [GET /api/db/conversations] *)
Definition list_conversations (r : authenticated) : prog http_response :=
  _ ← call (console_log
        [VStr ("[DB] Fetching conversations for: " +:+ display (field (user r) "email"))]);
  try_catch
    (q ← call (select (userClient r) "conversations" "*" []
                 (Some {| Supabase.column := "updated_at"; Supabase.ascending := false |}))
       ≫= await;
     _ ← throw_if (Supabase.error q);
     rows ← deref (Supabase.data q) "length";
     _ ← call (console_log
           [VStr ("[DB] Success: found " +:+ display (VNum (Z.of_nat (length rows)))
                  +:+ " chats")]);
     Ret (res_json (rows_value (Supabase.data q))))
    (λ error,
       _ ← call (console_error [VStr "[DB] Error:"; message error]);
       Ret (status_json 500 (error_body (message error)))).

(** [GET /api/db/conversations/:id] *)
Definition conversation_detail (r : authenticated) : prog http_response :=
  try_catch
    (let id := id (req r) in
     n ← call (select (userClient r) "nodes" "*"
                 [Supabase.eq "conversations_id" (VStr id)] None)
       ≫= await;
     _ ← throw_if (Supabase.error n);
     nodes ← deref (Supabase.data n) "map";
     m ← call (select (userClient r) "messages" "*"
                 [Supabase.in_ "nodes_id" ((λ node, field node "id") <$> nodes)]
                 (Some {| Supabase.column := "ordinal"; Supabase.ascending := true |}))
       ≫= await;
     _ ← throw_if (Supabase.error m);
     Ret (res_json (VObj {[ "nodes" := rows_value (Supabase.data n);
                            "messages" := rows_value (Supabase.data m) ]})))
    relay_error.

(** The four create handlers differ only in the table:
    [{ ...req.body, user_id: req.user.id }] inserted, the single
    inserted row relayed. *)
Definition create_row (table : string) (r : authenticated) : prog http_response :=
  try_catch
    (let payload := <[ "user_id" := field (user r) "id" ]> (body (req r)) in
     q ← call (insert (userClient r) table payload) ≫= await;
     _ ← throw_if (Supabase.error q);
     Ret (res_json (Supabase.data q)))
    relay_error.

(** [POST /api/db/conversations] *)
Definition create_conversation := create_row "conversations".

(** [POST /api/db/nodes] *)
Definition create_node := create_row "nodes".

(** [POST /api/db/messages] *)
Definition create_message := create_row "messages".

(** [POST /api/db/bugs] *)
Definition report_bug := create_row "bug_reports".

(** [PATCH /api/db/nodes/:id] *)
Definition update_node_title (r : authenticated) : prog http_response :=
  try_catch
    (let id := id (req r) in
     let title := field (body (req r)) "title" in
     q ← call (update (userClient r) "nodes" {[ "title" := title ]}
                 (Supabase.eq "id" (VStr id)))
       ≫= await;
     _ ← throw_if (Supabase.error q);
     Ret (res_json success_body))
    relay_error.

(** [PATCH /api/db/conversations/:id] *)
Definition update_conversation (r : authenticated) : prog http_response :=
  try_catch
    (let id := id (req r) in
     now ← call toISOString;
     q ← call (update (userClient r) "conversations"
                 (<[ "updated_at" := VStr now ]> (body (req r)))
                 (Supabase.eq "id" (VStr id)))
       ≫= await;
     _ ← throw_if (Supabase.error q);
     Ret (res_json success_body))
    relay_error.

(** [DELETE /api/db/conversations/:id] *)
Definition delete_conversation (r : authenticated) : prog http_response :=
  try_catch
    (let id := id (req r) in
     q ← call (delete_ (userClient r) "conversations" (Supabase.eq "id" (VStr id)))
       ≫= await;
     _ ← throw_if (Supabase.error q);
     Ret (res_json success_body))
    relay_error.

(** ** Configuration and health (index.js 299-309) *)

(** [GET /api/config/supabase] *)
Definition supabase_config (e : env) : prog http_response :=
  Ret (res_json (VObj {[ "url" := VStr (SUPABASE_URL e);
                         "key" := VStr (SUPABASE_KEY e) ]})).

(** [GET /health] *)
Definition health : prog http_response :=
  Ret {| status := 200; headers := []; payload := send "OK" |}.

(** ** The route table *)

Inductive route :=
| POST_openrouter_chat
| POST_openai_chat
| POST_gemini_generate
| GET_db_conversations
| GET_db_conversations_id
| POST_db_conversations
| POST_db_nodes
| PATCH_db_nodes_id
| POST_db_messages
| PATCH_db_conversations_id
| DELETE_db_conversations_id
| POST_db_bugs
| GET_config_supabase
| GET_health.

(** [app.METHOD(path, ...handlers)], one line per registered route. *)
Definition app (e : env) (rt : route) (req : request) : prog http_response :=
  match rt with
  | POST_openrouter_chat => openrouter_chat e req
  | POST_openai_chat => openai_chat req
  | POST_gemini_generate => gemini_generate req
  | GET_db_conversations => with_auth e list_conversations req
  | GET_db_conversations_id => with_auth e conversation_detail req
  | POST_db_conversations => with_auth e create_conversation req
  | POST_db_nodes => with_auth e create_node req
  | PATCH_db_nodes_id => with_auth e update_node_title req
  | POST_db_messages => with_auth e create_message req
  | PATCH_db_conversations_id => with_auth e update_conversation req
  | DELETE_db_conversations_id => with_auth e delete_conversation req
  | POST_db_bugs => with_auth e report_bug req
  | GET_config_supabase => supabase_config e
  | GET_health => health
  end.

(** The routes whose path starts with [/api/db/]. *)
Definition is_db_route (rt : route) : bool :=
  match rt with
  | GET_db_conversations | GET_db_conversations_id | POST_db_conversations
  | POST_db_nodes | PATCH_db_nodes_id | POST_db_messages
  | PATCH_db_conversations_id | DELETE_db_conversations_id | POST_db_bugs => true
  | _ => false
  end.

(** The table an insert route writes to. *)
Definition insert_table (rt : route) : option string :=
  match rt with
  | POST_db_conversations => Some "conversations"
  | POST_db_nodes => Some "nodes"
  | POST_db_messages => Some "messages"
  | POST_db_bugs => Some "bug_reports"
  | _ => None
  end.

(** ** A sample deployment

    A backend with one known user, used to evaluate the handlers on
    concrete requests.  Its state counts the calls it has answered. *)

Module Sample.
Definition environment : env :=
  {| OPENROUTER_API_KEY := VStr "or-key";
     SUPABASE_URL := "https://db.example";
     SUPABASE_KEY := "anon-key" |}.

Definition alice : gmap string value :=
  {[ "id" := VStr "user-alice"; "email" := VStr "alice@example.com" ]}.

Definition upstream_failure (code : Z) : js_error :=
  {| message := VStr "Request failed";
     response := Some {| Axios.status := code;
                         Axios.data := VObj {[ "detail" := VStr "quota exceeded" ]} |} |}.

(** The identity backend accepts exactly the header
    [Bearer alice-token]; the data backend refuses the table
    [bug_reports] and a conversation named [broken], and otherwise
    echoes what it stored; the providers fail for the model [down]. *)
Definition respond (o : op) (w : nat) : reply o * nat :=
  (match o return reply o with
   | getUser c =>
       if bool_decide (Supabase.Authorization c = Some "Bearer alice-token")
       then Fulfilled {| Supabase.user := Some alice; Supabase.auth_error := None |}
       else Fulfilled {| Supabase.user := None;
                         Supabase.auth_error :=
                           Some {| message := VStr "JWT expired"; response := None |} |}
   | select _ table _ filters _ =>
       match filters with
       | [Supabase.eq _ (VStr "broken")] =>
           Fulfilled {| Supabase.data := None;
                        Supabase.error :=
                          Some {| message := VStr "permission denied for table nodes";
                                  response := None |} |}
       | _ =>
           Fulfilled {| Supabase.data :=
                          Some [ {[ "id" := VStr (table +:+ "-1") ]} ];
                        Supabase.error := None |}
       end
   | insert _ table payload =>
       if String.eqb table "bug_reports"
       then Fulfilled {| Supabase.data := VNull;
                         Supabase.error :=
                           Some {| message := VStr "relation does not exist";
                                   response := None |} |}
       else Fulfilled {| Supabase.data := VObj (<[ "id" := VNum 7 ]> payload);
                         Supabase.error := None |}
   | update _ _ _ _ => Fulfilled {| Supabase.data := VNull; Supabase.error := None |}
   | delete_ _ _ _ => Fulfilled {| Supabase.data := VNull; Supabase.error := None |}
   | toISOString => "2026-01-01T00:00:00.000Z"
   | axios_post _ body _ =>
       match body !! "model" with
       | Some (VStr "down") => Rejected (upstream_failure 429)
       | Some (VStr "offline") =>
           Rejected {| message := VStr "getaddrinfo ENOTFOUND"; response := None |}
       | _ => Fulfilled {| Axios.status := 200; Axios.data := VStr "completion" |}
       end
   | openai_create params =>
       match params !! "model" with
       | Some (VStr "down") => Rejected (upstream_failure 429)
       | _ => Fulfilled (VStr "completion")
       end
   | generateContent params =>
       match params !! "model" with
       | Some (VStr "down") => Rejected (upstream_failure 429)
       | _ => Fulfilled {| text := VStr "generated" |}
       end
   | console_log _ => tt
   | console_error _ => tt
   end, S w).

Definition request_with (auth : option string) (id : string)
    (body : gmap string value) : request :=
  {| authorization := auth; id := id; body := body |}.

(** Run a route and keep the trace and the outcome. *)
Definition serve (rt : route) (rq : request) : list event * outcome http_response :=
  let '(tr, _, out) := run respond (app environment rt rq) 0%nat in (tr, out).
End Sample.

(** ** Vocabulary of the statements *)

(** The client the guard builds for a request that carries a token. *)
Definition request_client (e : env) (req : request) : Supabase.client :=
  createClient (SUPABASE_URL e) (SUPABASE_KEY e)
               (Some ("Bearer " +:+ display (bearer_token req))).

(** The identity backend answered and turned the token down: it
    reported an error, or no user. *)
Definition rejects (r : Supabase.user_reply) : Prop :=
  is_Some (Supabase.auth_error r) ∨ Supabase.user r = None.

(** A query failed: the promise rejected, or the reply carries an
    error. *)
Definition failure {D : Type} (r : settled (Supabase.reply D)) : option js_error :=
  match r with
  | Rejected e => Some e
  | Fulfilled q => Supabase.error q
  end.

(** The request carries no token the identity backend vouches for:
    none can be read from the header, or the backend answered and
    turned it down. *)
Definition lacks_valid_token {W : Type} (respond : ∀ o : op, W → reply o * W)
    (e : env) (req : request) (w : W) : Prop :=
  truthy (bearer_token req) = false ∨
  ∃ r w1, respond (getUser (request_client e req)) w = (Fulfilled r, w1) ∧ rejects r.

(** The [error] string of a JSON response body. *)
Definition error_message (res : http_response) : value :=
  match payload res with
  | json (VObj o) => field o "error"
  | _ => VUndefined
  end.

(** The three provider relays. *)
Definition is_relay (rt : route) : bool :=
  match rt with
  | POST_openrouter_chat | POST_openai_chat | POST_gemini_generate => true
  | _ => false
  end.

(** The error of a provider call that failed. *)
Definition provider_rejection (ev : event) : option js_error :=
  match ev with
  | Ev o r =>
      match o return reply o → option js_error with
      | axios_post _ _ _ =>
          λ s, match s with Rejected err => Some err | Fulfilled _ => None end
      | openai_create _ =>
          λ s, match s with Rejected err => Some err | Fulfilled _ => None end
      | generateContent _ =>
          λ s, match s with Rejected err => Some err | Fulfilled _ => None end
      | _ => λ _, None
      end r
  end.

(** The provider failures of a trace. *)
Definition provider_failures (tr : list event) : list js_error :=
  omap provider_rejection tr.

(** The caller's history entries: those of the array when [history]
    is one, the characters when it is a string, none when it is absent
    (or any other falsy value); undefined for what cannot be iterated. *)
Definition history_entries (req : request) : option (list value) :=
  match field (body req) "history" with
  | VArr entries => Some entries
  | VStr s => Some ((λ c, VStr (String c EmptyString)) <$> String.list_ascii_of_string s)
  | v => if truthy v then None else Some []
  end.

(** The request with its [files] field set. *)
Definition with_files (v : value) (req : request) : request :=
  {| authorization := authorization req; id := id req;
     body := <[ "files" := v ]> (body req) |}.

(** A string without a space. *)
Fixpoint no_space (s : string) : bool :=
  match s with
  | EmptyString => true
  | String c rest => negb (Ascii.eqb c " ") && no_space rest
  end.

(** The token as claim C10 words it: the substring after the first
    space of the header, none when the header has no space. *)
Fixpoint after_first_space (header : string) : option string :=
  match header with
  | EmptyString => None
  | String c rest => if Ascii.eqb c " " then Some rest else after_first_space rest
  end.

(** The shapes of an [Authorization] header and the token each
    yields: nothing without a header or without a space, otherwise the
    text between the first space and the next one. *)
Inductive header_token : option string → value → Prop :=
| header_absent : header_token None VUndefined
| header_one_word (h : string) :
    no_space h = true → header_token (Some h) VUndefined
| header_two_words (scheme token : string) :
    no_space scheme = true → no_space token = true →
    header_token (Some (scheme +:+ " " +:+ token)) (VStr token)
| header_more_words (scheme token rest : string) :
    no_space scheme = true → no_space token = true →
    header_token (Some (scheme +:+ " " +:+ token +:+ " " +:+ rest)) (VStr token).

(** The tables a trace selects from. *)
Definition selected_tables (tr : list event) : list string :=
  omap (λ o, match o with select _ table _ _ _ => Some table | _ => None end) (calls tr).

(** A request whose token the sample identity backend turns down. *)
Definition stale_request : request :=
  Sample.request_with (Some "Bearer stale-token") "c1" ∅.

(** The sample user creating a conversation while naming another
    owner in the body. *)
Definition forged_owner_request : request :=
  Sample.request_with (Some "Bearer alice-token") ""
    {[ "title" := VStr "Test"; "user_id" := VStr "mallory" ]}.

(** The sample user asking for a conversation the backend refuses,
    and for one it serves. *)
Definition broken_detail_request : request :=
  Sample.request_with (Some "Bearer alice-token") "broken" ∅.

Definition detail_request : request :=
  Sample.request_with (Some "Bearer alice-token") "c1" ∅.

(** The sample user archiving a conversation while supplying a
    timestamp of their own. *)
Definition archive_request : request :=
  Sample.request_with (Some "Bearer alice-token") "c1"
    {[ "status" := VStr "archived"; "updated_at" := VStr "1999-12-31T23:59:59.000Z" ]}.

(** The sample user renaming a node while supplying another field. *)
Definition rename_request : request :=
  Sample.request_with (Some "Bearer alice-token") "n1"
    {[ "title" := VStr "Renamed"; "conversations_id" := VStr "c2" ]}.

(** A call to the OpenRouter relay while the sample provider is out of
    quota. *)
Definition quota_request : request :=
  Sample.request_with None "" {[ "model" := VStr "down" ]}.

(** A Gemini request with one turn of history, no model, and files. *)
Definition gemini_request : request :=
  Sample.request_with None ""
    {[ "prompt" := VStr "And then?";
       "history" := VArr [VObj {[ "role" := VStr "model";
                                  "parts" := VArr [VObj {[ "text" := VStr "Hi" ]}] ]}];
       "files" := VArr [VStr "aGVsbG8="] ]}.

(** Requests with a scheme other than [Bearer], and with a token that
    contains a space. *)
Definition basic_scheme_request : request :=
  Sample.request_with (Some "Basic alice-token") "c1" ∅.

Definition spaced_token_request : request :=
  Sample.request_with (Some "Bearer abc def") "c1" ∅.

(** A deployment whose [SUPABASE_KEY] is the service key, as the
    comment above the admin client allows. *)
Definition service_deployment : env :=
  {| OPENROUTER_API_KEY := VStr "or-key";
     SUPABASE_URL := "https://db.example";
     SUPABASE_KEY := "service-role-key" |}.

(** ** Vocabulary of the route-wide properties *)

(** The admin client created at module load (index.js 108): the
    environment's URL and key, no [Authorization] header. *)
Definition supabase (e : env) : Supabase.client :=
  createClient (SUPABASE_URL e) (SUPABASE_KEY e) None.

(** The client a backend call goes through. *)
Definition op_client (o : op) : option Supabase.client :=
  match o with
  | getUser c | select c _ _ _ _ | insert c _ _ | update c _ _ _ | delete_ c _ _ => Some c
  | _ => None
  end.

(** Calls to one of the three AI providers. *)
Definition is_provider_call (o : op) : bool :=
  match o with
  | axios_post _ _ _ | openai_create _ | generateContent _ => true
  | _ => false
  end.

(** Data operations that change rows. *)
Definition is_write (o : op) : bool :=
  match o with
  | insert _ _ _ | update _ _ _ _ | delete_ _ _ _ => true
  | _ => false
  end.

(** The routes registered with [app.get]. *)
Definition is_get (rt : route) : bool :=
  match rt with
  | GET_db_conversations | GET_db_conversations_id | GET_config_supabase | GET_health => true
  | _ => false
  end.

(** A program keeps to [P], [Q] and [E] when, whatever the replies,
    every call it makes satisfies [P], every value it returns
    satisfies [Q] and every error it leaves uncaught satisfies [E]. *)
Fixpoint upholds {A : Type} (P : op → Prop) (Q : A → Prop) (E : js_error → Prop)
    (p : prog A) : Prop :=
  match p with
  | Ret a => Q a
  | Throw e => E e
  | Vis o k => P o ∧ ∀ r, upholds P Q E (k r)
  end.

(** The error of a data operation that failed. *)
Definition data_failure (ev : event) : option js_error :=
  match ev with
  | Ev o r =>
      match o return reply o → option js_error with
      | select _ _ _ _ _ => λ s, failure s
      | insert _ _ _ => λ s, failure s
      | update _ _ _ _ => λ s, failure s
      | delete_ _ _ _ => λ s, failure s
      | _ => λ _, None
      end r
  end.

(** The same body sent with another [Authorization] header and path
    id, and the same header and id sent with another body. *)
Definition readdressed (auth : option string) (i : string) (req : request) : request :=
  {| authorization := auth; id := i; body := body req |}.

Definition with_body (b : gmap string value) (req : request) : request :=
  {| authorization := authorization req; id := id req; body := b |}.


(** The sample backend with its identity service unreachable, and
    with its messages table refused. *)
Definition outage_respond (o : op) (w : nat) : reply o * nat :=
  match o return reply o * nat with
  | getUser _ =>
      (Rejected {| message := VStr "fetch failed"; response := None |}, S w)
  | o' => Sample.respond o' w
  end.

Definition messages_down_respond (o : op) (w : nat) : reply o * nat :=
  match o return reply o * nat with
  | select _ "messages" _ _ _ =>
      (Fulfilled {| Supabase.data := None;
                    Supabase.error :=
                      Some {| message := VStr "permission denied for table messages";
                              response := None |} |}, S w)
  | o' => Sample.respond o' w
  end.

(** A Gemini request whose [history] is a number. *)
Definition uniterable_history_request : request :=
  Sample.request_with None "" {[ "prompt" := VStr "Hi"; "history" := VNum 5 ]}.

(** A chat request with a field the relays do not know. *)
Definition chat_request : request :=
  Sample.request_with None ""
    {[ "model" := VStr "m"; "messages" := VArr []; "temperature" := VNum 1 ]}.

(** Calls that reach the identity backend. *)
Definition is_identity_call (o : op) : bool :=
  match o with
  | getUser _ => true
  | _ => false
  end.

(** The identity verifications and the writes of a trace. *)
Definition identity_calls (tr : list event) : list op :=
  filter (λ o, is_identity_call o = true) (calls tr).

Definition writes (tr : list event) : list op :=
  filter (λ o, is_write o = true) (calls tr).

(** * Theorems *)

Example sample_create :
  Sample.serve POST_db_conversations
    (Sample.request_with (Some "Bearer alice-token") ""
       {[ "title" := VStr "Test"; "user_id" := VStr "mallory" ]})
  = ([Ev (getUser (createClient "https://db.example" "anon-key" (Some "Bearer alice-token")))
         (Fulfilled {| Supabase.user := Some Sample.alice; Supabase.auth_error := None |});
      Ev (insert (createClient "https://db.example" "anon-key" (Some "Bearer alice-token"))
            "conversations" {[ "title" := VStr "Test"; "user_id" := VStr "user-alice" ]})
         (Fulfilled {| Supabase.data :=
                         VObj {[ "id" := VNum 7; "title" := VStr "Test";
                                 "user_id" := VStr "user-alice" ]};
                       Supabase.error := None |})],
     Returned (res_json (VObj {[ "id" := VNum 7; "title" := VStr "Test";
                                 "user_id" := VStr "user-alice" ]}))).
Proof. vm_compute. reflexivity. Qed.

Example sample_split :
  split " " "Bearer abc" = ["Bearer"; "abc"]
  ∧ split " " "Bearer  abc" = ["Bearer"; ""; "abc"]
  ∧ split " " "abc" = ["abc"]
  ∧ split " " "" = [""]
  ∧ split " " "a b " = ["a"; "b"; ""].
Proof. repeat split. Qed.

Example sample_double_space :
  Sample.serve GET_db_conversations (Sample.request_with (Some "Bearer  alice-token") "" ∅)
  = ([Ev (console_log [VStr "[AUTH] No token provided"]) tt],
     Returned (status_json 401 (error_body (VStr "Unauthorized")))).
Proof. vm_compute. reflexivity. Qed.

Example sample_list :
  Sample.serve GET_db_conversations detail_request
  = ([Ev (getUser (request_client Sample.environment detail_request))
         (Fulfilled {| Supabase.user := Some Sample.alice; Supabase.auth_error := None |});
      Ev (console_log [VStr "[DB] Fetching conversations for: alice@example.com"]) tt;
      Ev (select (request_client Sample.environment detail_request) "conversations" "*" []
            (Some {| Supabase.column := "updated_at"; Supabase.ascending := false |}))
         (Fulfilled {| Supabase.data := Some [ {[ "id" := VStr "conversations-1" ]} ];
                       Supabase.error := None |});
      Ev (console_log [VStr "[DB] Success: found 1 chats"]) tt],
     Returned (res_json (VArr [VObj {[ "id" := VStr "conversations-1" ]}]))).
Proof. vm_compute. reflexivity. Qed.

Example sample_stream :
  (Sample.serve POST_openrouter_chat
     (Sample.request_with None "" {[ "model" := VStr "m"; "stream" := VBool true ]})).2
  = Returned {| status := 200;
                headers := [("Content-Type", "text/event-stream");
                            ("Cache-Control", "no-cache");
                            ("Connection", "keep-alive")];
                payload := pipe (VStr "completion") |}.
Proof. vm_compute. reflexivity. Qed.

Example sample_offline :
  (Sample.serve POST_openrouter_chat
     (Sample.request_with None "" {[ "model" := VStr "offline" ]})).2
  = Returned (status_json 500 (error_body (VStr "Failed to fetch from OpenRouter"))).
Proof. vm_compute. reflexivity. Qed.

Example sample_bug_report_refused :
  (Sample.serve POST_db_bugs forged_owner_request).2
  = Returned (status_json 500 (error_body (VStr "relation does not exist"))).
Proof. vm_compute. reflexivity. Qed.

(** ** Running programs *)

Section Runner.
Context {W : Type} (respond : ∀ o : op, W → reply o * W).

Lemma run_bind {A B : Type} (p : prog A) (f : A → prog B) (w : W) :
  run respond (p ≫= f) w =
    let '(tr, w1, out) := run respond p w in
    match out with
    | Returned a =>
        let '(tr2, w2, out2) := run respond (f a) w1 in (tr ++ tr2, w2, out2)
    | Uncaught e => (tr, w1, Uncaught e)
    end.
Proof.
  unfold mbind, prog_bind.
  revert w. induction p as [a | e | o k IH]; intros w; simpl.
  - by destruct (run respond (f a) w) as [[tr2 w2] out2].
  - reflexivity.
  - destruct (respond o w) as [r w1]. rewrite IH.
    destruct (run respond (k r) w1) as [[tr w2] [a | e]]; [| done].
    by destruct (run respond (f a) w2) as [[tr2 w3] out2].
Qed.

Lemma run_try_catch {A : Type} (p : prog A) (h : js_error → prog A) (w : W) :
  run respond (try_catch p h) w =
    let '(tr, w1, out) := run respond p w in
    match out with
    | Returned a => (tr, w1, Returned a)
    | Uncaught e =>
        let '(tr2, w2, out2) := run respond (h e) w1 in (tr ++ tr2, w2, out2)
    end.
Proof.
  revert w. induction p as [a | e | o k IH]; intros w; simpl.
  - reflexivity.
  - by destruct (run respond (h e) w) as [[tr2 w2] out2].
  - destruct (respond o w) as [r w1]. rewrite IH.
    destruct (run respond (k r) w1) as [[tr w2] [a | e]]; [done |].
    by destruct (run respond (h e) w2) as [[tr2 w3] out2].
Qed.

Lemma run_call (o : op) (w : W) :
  run respond (call o) w = ([Ev o (respond o w).1], (respond o w).2, Returned (respond o w).1).
Proof. unfold call. simpl. by destruct (respond o w). Qed.

(** The guard without a token: one console line, then 401. *)
Lemma guard_no_token (e : env) (req : request) (w : W) :
  truthy (bearer_token req) = false →
  run respond (authenticateUser e req) w =
    ([Ev (console_log [VStr "[AUTH] No token provided"]) tt],
     (respond (console_log [VStr "[AUTH] No token provided"]) w).2,
     Returned (inl (status_json 401 (error_body (VStr "Unauthorized"))))).
Proof.
  intros Hno. unfold authenticateUser. rewrite Hno. simpl.
  by destruct (respond (console_log _) w) as [[] w1].
Qed.

(** The guard with a token the identity backend turns down. *)
Lemma guard_rejected (e : env) (req : request) (w w1 : W) (r : Supabase.user_reply) :
  truthy (bearer_token req) = true →
  respond (getUser (request_client e req)) w = (Fulfilled r, w1) →
  rejects r →
  run respond (authenticateUser e req) w =
    ([Ev (getUser (request_client e req)) (Fulfilled r);
      Ev (console_error [VStr "[AUTH] Token invalid:";
                         from_option message VUndefined (Supabase.auth_error r)]) tt],
     (respond (console_error [VStr "[AUTH] Token invalid:";
                              from_option message VUndefined (Supabase.auth_error r)]) w1).2,
     Returned (inl (status_json 401 (error_body (VStr "Invalid token"))))).
Proof.
  intros Htok Hget Hrej. unfold authenticateUser. rewrite Htok. simpl.
  fold (request_client e req). rewrite Hget. simpl.
  destruct r as [u err]. simpl in *.
  destruct err as [err |]; simpl.
  - by destruct (respond (console_error _) w1) as [[] w2].
  - destruct Hrej as [[x Hx] | Hu]; [done |]. simpl in Hu. subst u. simpl.
    by destruct (respond (console_error _) w1) as [[] w2].
Qed.

(** The guard with a token the identity backend accepts. *)
Lemma guard_accepted (e : env) (req : request) (w w1 : W) (u : gmap string value) :
  truthy (bearer_token req) = true →
  respond (getUser (request_client e req)) w
    = (Fulfilled {| Supabase.user := Some u; Supabase.auth_error := None |}, w1) →
  run respond (authenticateUser e req) w =
    ([Ev (getUser (request_client e req))
         (Fulfilled {| Supabase.user := Some u; Supabase.auth_error := None |})],
     w1,
     Returned (inr {| Express.req := req; userClient := request_client e req; user := u |})).
Proof.
  intros Htok Hget. unfold authenticateUser. rewrite Htok. simpl.
  fold (request_client e req). by rewrite Hget.
Qed.
End Runner.

(** ** The auth guard in front of the database routes *)

Section Guard.
Context {W : Type} (respond : ∀ o : op, W → reply o * W).

(** Every database route is its handler behind the guard. *)
Lemma db_route_guarded (rt : route) :
  is_db_route rt = true →
  ∃ handler, ∀ e req, app e rt req = with_auth e handler req.
Proof. destruct rt; intros H; try discriminate H; eexists; reflexivity. Qed.

Lemma with_auth_no_token (e : env) (handler : authenticated → prog http_response)
    (req : request) (w : W) :
  truthy (bearer_token req) = false →
  run respond (with_auth e handler req) w =
    ([Ev (console_log [VStr "[AUTH] No token provided"]) tt],
     (respond (console_log [VStr "[AUTH] No token provided"]) w).2,
     Returned (status_json 401 (error_body (VStr "Unauthorized")))).
Proof.
  intros Hno. unfold with_auth. rewrite run_bind, guard_no_token by done.
  reflexivity.
Qed.

Lemma with_auth_rejected (e : env) (handler : authenticated → prog http_response)
    (req : request) (w w1 : W) (r : Supabase.user_reply) :
  truthy (bearer_token req) = true →
  respond (getUser (request_client e req)) w = (Fulfilled r, w1) →
  rejects r →
  run respond (with_auth e handler req) w =
    ([Ev (getUser (request_client e req)) (Fulfilled r);
      Ev (console_error [VStr "[AUTH] Token invalid:";
                         from_option message VUndefined (Supabase.auth_error r)]) tt],
     (respond (console_error [VStr "[AUTH] Token invalid:";
                              from_option message VUndefined (Supabase.auth_error r)]) w1).2,
     Returned (status_json 401 (error_body (VStr "Invalid token")))).
Proof.
  intros Htok Hget Hrej. unfold with_auth.
  rewrite run_bind, (guard_rejected _ _ _ _ _ _ Htok Hget Hrej).
  reflexivity.
Qed.

Lemma with_auth_accepted (e : env) (handler : authenticated → prog http_response)
    (req : request) (w w1 : W) (u : gmap string value) :
  truthy (bearer_token req) = true →
  respond (getUser (request_client e req)) w
    = (Fulfilled {| Supabase.user := Some u; Supabase.auth_error := None |}, w1) →
  run respond (with_auth e handler req) w =
    let '(tr, w2, out) :=
      run respond
        (handler {| Express.req := req; userClient := request_client e req; user := u |})
        w1 in
    (Ev (getUser (request_client e req))
        (Fulfilled {| Supabase.user := Some u; Supabase.auth_error := None |}) :: tr,
     w2, out).
Proof.
  intros Htok Hget. unfold with_auth.
  rewrite run_bind, (guard_accepted _ _ _ _ _ _ Htok Hget).
  reflexivity.
Qed.

(** C3 (as the code has it).  A request to a database route without a
    token the identity backend vouches for is answered 401 and no
    data operation is attempted.  When no token can be read from the
    header no backend call at all is made; when a token is present
    and the identity backend turns it down, the one call made is that
    identity verification. *)
Theorem unauthorized_without_valid_token (e : env) (rt : route) (req : request) (w : W) :
  is_db_route rt = true →
  lacks_valid_token respond e req w →
  ∃ tr w' res,
    run respond (app e rt req) w = (tr, w', Returned res)
    ∧ status res = 401
    ∧ data_operations tr = []
    ∧ backend_calls tr =
        if truthy (bearer_token req) then [getUser (request_client e req)] else [].
Proof.
  intros Hdb Hlack. destruct (db_route_guarded rt Hdb) as [handler ->].
  destruct Hlack as [Hno | (r & w1 & Hget & Hrej)].
  - rewrite (with_auth_no_token _ _ _ _ Hno), Hno. by do 3 eexists.
  - destruct (truthy (bearer_token req)) eqn:Htok.
    + rewrite (with_auth_rejected _ _ _ _ _ _ Htok Hget Hrej). by do 3 eexists.
    + rewrite (with_auth_no_token _ _ _ _ Htok). by do 3 eexists.
Qed.

(** C4 (as the code has it).  When the token is present and the
    identity backend turns it down, the answer is 401 with the fixed
    body [{ error: 'Invalid token' }] whatever the backend said; the
    backend's message, when there is one, goes to the console only;
    and the route's handler is not executed: the run is the same for
    every handler placed behind the guard. *)
Theorem rejected_token_fixed_message (e : env) (rt : route) (req : request)
    (w w1 : W) (r : Supabase.user_reply) :
  is_db_route rt = true →
  truthy (bearer_token req) = true →
  respond (getUser (request_client e req)) w = (Fulfilled r, w1) →
  rejects r →
  ∃ tr w2,
    tr = [Ev (getUser (request_client e req)) (Fulfilled r);
          Ev (console_error [VStr "[AUTH] Token invalid:";
                             from_option message VUndefined (Supabase.auth_error r)]) tt]
    ∧ run respond (app e rt req) w
        = (tr, w2, Returned (status_json 401 (error_body (VStr "Invalid token"))))
    ∧ ∀ handler,
        run respond (with_auth e handler req) w
        = (tr, w2, Returned (status_json 401 (error_body (VStr "Invalid token")))).
Proof.
  intros Hdb Htok Hget Hrej. destruct (db_route_guarded rt Hdb) as [handler ->].
  do 2 eexists. split; [reflexivity |]. split.
  - apply (with_auth_rejected _ _ _ _ _ _ Htok Hget Hrej).
  - intros h. apply (with_auth_rejected _ _ _ _ _ _ Htok Hget Hrej).
Qed.
End Guard.

(** C3, witness: the sample backend turns [stale-token] down on the
    conversation list. *)
Lemma unauthorized_without_valid_token_witness :
  ∃ tr w' res,
    run Sample.respond (app Sample.environment GET_db_conversations stale_request) 0%nat
      = (tr, w', Returned res)
    ∧ status res = 401
    ∧ data_operations tr = []
    ∧ backend_calls tr =
        if truthy (bearer_token stale_request)
        then [getUser (request_client Sample.environment stale_request)] else [].
Proof.
  apply (unauthorized_without_valid_token Sample.respond).
  - reflexivity.
  - right. do 2 eexists. split; [reflexivity |]. left. by eexists.
Defined.

(** C3, as stated, fails: the sample request carries no valid token,
    yet the identity backend is called. *)
Lemma invalid_token_reaches_identity_backend :
  lacks_valid_token Sample.respond Sample.environment stale_request 0%nat
  ∧ backend_calls (Sample.serve GET_db_conversations stale_request).1
      = [getUser (createClient "https://db.example" "anon-key" (Some "Bearer stale-token"))]
  ∧ backend_calls (Sample.serve GET_db_conversations stale_request).1 ≠ [].
Proof.
  split; [| split].
  - right. do 2 eexists. split; [reflexivity |]. left. by eexists.
  - reflexivity.
  - discriminate.
Qed.

(** C4, witness: the sample backend turns [stale-token] down. *)
Lemma rejected_token_fixed_message_witness :
  ∃ tr w2,
    tr = [Ev (getUser (request_client Sample.environment stale_request))
             (Fulfilled {| Supabase.user := None;
                           Supabase.auth_error :=
                             Some {| message := VStr "JWT expired"; response := None |} |});
          Ev (console_error [VStr "[AUTH] Token invalid:"; VStr "JWT expired"]) tt]
    ∧ run Sample.respond (app Sample.environment PATCH_db_nodes_id stale_request) 0%nat
        = (tr, w2, Returned (status_json 401 (error_body (VStr "Invalid token"))))
    ∧ ∀ handler,
        run Sample.respond (with_auth Sample.environment handler stale_request) 0%nat
        = (tr, w2, Returned (status_json 401 (error_body (VStr "Invalid token")))).
Proof.
  apply (rejected_token_fixed_message Sample.respond Sample.environment
           PATCH_db_nodes_id stale_request 0%nat 1%nat).
  - reflexivity.
  - reflexivity.
  - reflexivity.
  - left. by eexists.
Defined.

(** C4, as stated, fails: the backend's message is available and the
    response does not carry it. *)
Lemma backend_message_not_in_response :
  (Sample.respond (getUser (request_client Sample.environment stale_request)) 0%nat).1
    = Fulfilled {| Supabase.user := None;
                   Supabase.auth_error :=
                     Some {| message := VStr "JWT expired"; response := None |} |}
  ∧ (Sample.serve GET_db_conversations stale_request).2
    = Returned (status_json 401 (error_body (VStr "Invalid token")))
  ∧ error_message (status_json 401 (error_body (VStr "Invalid token"))) = VStr "Invalid token"
  ∧ error_message (status_json 401 (error_body (VStr "Invalid token"))) ≠ VStr "JWT expired".
Proof.
  split; [| split; [| split]].
  - reflexivity.
  - reflexivity.
  - reflexivity.
  - discriminate.
Qed.

(** ** Creating rows *)

Section Create.
Context {W : Type} (respond : ∀ o : op, W → reply o * W).

(** One insert, with the payload built from the body and the
    identity; its reply decides the response. *)
Lemma run_create_row (table : string) (r : authenticated) (w : W) :
  run respond (create_row table r) w =
    let '(q, w1) :=
      respond (insert (userClient r) table
                 (<[ "user_id" := field (user r) "id" ]> (body (req r)))) w in
    ([Ev (insert (userClient r) table
            (<[ "user_id" := field (user r) "id" ]> (body (req r)))) q],
     w1,
     Returned match q with
              | Rejected err => status_json 500 (error_body (message err))
              | Fulfilled x =>
                  match Supabase.error x with
                  | Some err => status_json 500 (error_body (message err))
                  | None => res_json (Supabase.data x)
                  end
              end).
Proof.
  unfold create_row. simpl.
  destruct (respond (insert _ _ _) w) as [[[row [err |]] | err] w1]; reflexivity.
Qed.

Lemma insert_route_handler (rt : route) (table : string) :
  insert_table rt = Some table →
  ∀ e req, app e rt req = with_auth e (create_row table) req.
Proof. destruct rt; intros H; try discriminate H; by injection H as <-. Qed.

(** C1.  On each of the four insert routes, once the guard has
    verified the identity [u], the one row sent to the backend is the
    request body with [user_id] set to the identity's id: a
    [user_id] in the body is overridden, every other body field is
    passed as it is.  When the insert succeeds the response is the
    backend's inserted row, and a backend that returns the row it
    was sent (with any fields of its own added) returns it with that
    same [user_id]. *)
Theorem insert_carries_identity (e : env) (rt : route) (table : string)
    (req : request) (w w1 : W) (u : gmap string value) :
  insert_table rt = Some table →
  truthy (bearer_token req) = true →
  respond (getUser (request_client e req)) w
    = (Fulfilled {| Supabase.user := Some u; Supabase.auth_error := None |}, w1) →
  ∃ sent q,
    sent = <[ "user_id" := field u "id" ]> (body req)
    ∧ sent !! "user_id" = Some (field u "id")
    ∧ (∀ k, k ≠ "user_id" → sent !! k = body req !! k)
    ∧ (run respond (app e rt req) w).1.1
        = [Ev (getUser (request_client e req))
              (Fulfilled {| Supabase.user := Some u; Supabase.auth_error := None |});
           Ev (insert (request_client e req) table sent) q]
    ∧ ∀ row, q = Fulfilled {| Supabase.data := row; Supabase.error := None |} →
        (run respond (app e rt req) w).2 = Returned (res_json row)
        ∧ ∀ stored, row = VObj stored → sent ⊆ stored →
            stored !! "user_id" = Some (field u "id").
Proof.
  intros Htable Htok Hget.
  rewrite (insert_route_handler rt table Htable).
  rewrite (with_auth_accepted respond _ _ _ _ _ _ Htok Hget), run_create_row.
  simpl.
  destruct (respond (insert _ _ _) w1) as [q w2] eqn:Hq.
  exists (<[ "user_id" := field u "id" ]> (body req)), q.
  split; [reflexivity |]. split; [apply lookup_insert_eq |].
  split; [by intros k Hk; apply lookup_insert_ne |].
  split; [reflexivity |].
  intros row ->. split; [reflexivity |].
  intros stored _ Hsub. eapply lookup_weaken; [apply lookup_insert_eq | exact Hsub].
Qed.
End Create.

(** C1, witness: the sample user creates a conversation and tries to
    pass another owner. *)
Lemma insert_carries_identity_witness :
  ∃ sent q,
    sent = <[ "user_id" := field Sample.alice "id" ]> (body forged_owner_request)
    ∧ sent !! "user_id" = Some (field Sample.alice "id")
    ∧ (∀ k, k ≠ "user_id" → sent !! k = body forged_owner_request !! k)
    ∧ (run Sample.respond
         (app Sample.environment POST_db_conversations forged_owner_request) 0%nat).1.1
        = [Ev (getUser (request_client Sample.environment forged_owner_request))
              (Fulfilled {| Supabase.user := Some Sample.alice; Supabase.auth_error := None |});
           Ev (insert (request_client Sample.environment forged_owner_request)
                 "conversations" sent) q]
    ∧ ∀ row, q = Fulfilled {| Supabase.data := row; Supabase.error := None |} →
        (run Sample.respond
           (app Sample.environment POST_db_conversations forged_owner_request) 0%nat).2
          = Returned (res_json row)
        ∧ ∀ stored, row = VObj stored → sent ⊆ stored →
            stored !! "user_id" = Some (field Sample.alice "id").
Proof.
  apply (insert_carries_identity Sample.respond Sample.environment
           POST_db_conversations "conversations" forged_owner_request 0%nat 1%nat).
  - reflexivity.
  - reflexivity.
  - reflexivity.
Defined.

(** ** Conversation detail *)

Section Detail.
Context {W : Type} (respond : ∀ o : op, W → reply o * W).

(** C5.  On [GET /api/db/conversations/:id], behind a verified
    identity: when the node fetch fails (the promise rejects or the
    reply carries an error) the handler stops there, the messages
    table is never queried, and the response is 500 with the node
    fetch's error message and nothing else; when both fetches succeed
    the response is [{ nodes, messages }] with both collections. *)
Theorem conversation_detail_two_step (e : env) (req : request) (w w1 w2 : W)
    (u : gmap string value)
    (rn : settled (Supabase.reply (option (list (gmap string value))))) :
  truthy (bearer_token req) = true →
  respond (getUser (request_client e req)) w
    = (Fulfilled {| Supabase.user := Some u; Supabase.auth_error := None |}, w1) →
  respond (select (request_client e req) "nodes" "*"
             [Supabase.eq "conversations_id" (VStr (id req))] None) w1 = (rn, w2) →
  (∀ err, failure rn = Some err →
     ∃ tr,
       run respond (app e GET_db_conversations_id req) w
         = (tr, w2, Returned (status_json 500 (error_body (message err))))
       ∧ selected_tables tr = ["nodes"]
       ∧ data_operations tr
           = [select (request_client e req) "nodes" "*"
                [Supabase.eq "conversations_id" (VStr (id req))] None])
  ∧ (∀ nodes messages w3,
       rn = Fulfilled {| Supabase.data := Some nodes; Supabase.error := None |} →
       respond (select (request_client e req) "messages" "*"
                  [Supabase.in_ "nodes_id" ((λ node, field node "id") <$> nodes)]
                  (Some {| Supabase.column := "ordinal"; Supabase.ascending := true |}))
               w2
         = (Fulfilled {| Supabase.data := messages; Supabase.error := None |}, w3) →
       ∃ tr,
         run respond (app e GET_db_conversations_id req) w
           = (tr, w3,
              Returned (res_json (VObj {[ "nodes" := rows_value (Some nodes);
                                          "messages" := rows_value messages ]})))
         ∧ selected_tables tr = ["nodes"; "messages"]).
Proof.
  intros Htok Hget Hnodes. simpl.
  rewrite (with_auth_accepted respond _ _ _ _ _ _ Htok Hget).
  unfold conversation_detail. simpl. rewrite Hnodes. split.
  - intros err Herr. destruct rn as [[rows [e1 |]] | e1]; simplify_eq/=.
    + by eexists.
    + by eexists.
  - intros nodes messages w3 -> Hmsgs. simpl. rewrite Hmsgs. simpl. by eexists.
Qed.
End Detail.

(** ** Updates *)

Section Update.
Context {W : Type} (respond : ∀ o : op, W → reply o * W).

(** C6.  On [PATCH /api/db/conversations/:id], behind a verified
    identity, the server reads its own clock during the request and
    sends one update of the conversation with the path id: the
    request body with [updated_at] set to that clock reading.  A
    caller's [updated_at] is overridden, every other body field is
    passed as it is.  On success the response is [{ success: true }]
    whatever row data the backend returned. *)
Theorem update_conversation_stamps (e : env) (req : request) (w w1 w2 w3 : W)
    (u : gmap string value) (now : string) (q : settled (Supabase.reply value)) :
  truthy (bearer_token req) = true →
  respond (getUser (request_client e req)) w
    = (Fulfilled {| Supabase.user := Some u; Supabase.auth_error := None |}, w1) →
  respond toISOString w1 = (now, w2) →
  respond (update (request_client e req) "conversations"
             (<[ "updated_at" := VStr now ]> (body req))
             (Supabase.eq "id" (VStr (id req)))) w2 = (q, w3) →
  ∃ sent,
    sent = <[ "updated_at" := VStr now ]> (body req)
    ∧ sent !! "updated_at" = Some (VStr now)
    ∧ (∀ k, k ≠ "updated_at" → sent !! k = body req !! k)
    ∧ (run respond (app e PATCH_db_conversations_id req) w).1.1
        = [Ev (getUser (request_client e req))
              (Fulfilled {| Supabase.user := Some u; Supabase.auth_error := None |});
           Ev toISOString now;
           Ev (update (request_client e req) "conversations" sent
                 (Supabase.eq "id" (VStr (id req)))) q]
    ∧ ∀ row, q = Fulfilled {| Supabase.data := row; Supabase.error := None |} →
        (run respond (app e PATCH_db_conversations_id req) w).2
          = Returned (res_json success_body).
Proof.
  intros Htok Hget Hnow Hupd. simpl.
  rewrite (with_auth_accepted respond _ _ _ _ _ _ Htok Hget).
  unfold update_conversation. simpl. rewrite Hnow. simpl. rewrite Hupd.
  eexists. split; [reflexivity |]. split; [apply lookup_insert_eq |].
  split; [by intros k Hk; apply lookup_insert_ne |].
  destruct q as [[row [err |]] | err]; simpl; (split; [reflexivity |]);
    intros row' Hq; by simplify_eq.
Qed.

(** C7.  On [PATCH /api/db/nodes/:id], behind a verified identity,
    the one update sent targets the node with the path id and has the
    single field [title], taken from the body; no other body field
    is forwarded, so laying the update over a stored row leaves every
    field other than [title] as it was.  On success the response is
    [{ success: true }] whatever row data the backend returned. *)
Theorem update_node_title_only (e : env) (req : request) (w w1 w2 : W)
    (u : gmap string value) (q : settled (Supabase.reply value)) :
  truthy (bearer_token req) = true →
  respond (getUser (request_client e req)) w
    = (Fulfilled {| Supabase.user := Some u; Supabase.auth_error := None |}, w1) →
  respond (update (request_client e req) "nodes"
             {[ "title" := field (body req) "title" ]}
             (Supabase.eq "id" (VStr (id req)))) w1 = (q, w2) →
  ∃ sent : gmap string value,
    sent = {[ "title" := field (body req) "title" ]}
    ∧ dom sent = {[ "title" ]}
    ∧ (∀ k, k ≠ "title" → sent !! k = None)
    ∧ (∀ (row : gmap string value) k, k ≠ "title" → (sent ∪ row) !! k = row !! k)
    ∧ (run respond (app e PATCH_db_nodes_id req) w).1.1
        = [Ev (getUser (request_client e req))
              (Fulfilled {| Supabase.user := Some u; Supabase.auth_error := None |});
           Ev (update (request_client e req) "nodes" sent
                 (Supabase.eq "id" (VStr (id req)))) q]
    ∧ ∀ row, q = Fulfilled {| Supabase.data := row; Supabase.error := None |} →
        (run respond (app e PATCH_db_nodes_id req) w).2
          = Returned (res_json success_body).
Proof.
  intros Htok Hget Hupd. simpl.
  rewrite (with_auth_accepted respond _ _ _ _ _ _ Htok Hget).
  unfold update_node_title. simpl. rewrite Hupd.
  eexists. split; [reflexivity |]. split; [apply dom_singleton_L |].
  split; [by intros k Hk; apply lookup_singleton_ne |].
  split.
  { intros row k Hk. rewrite lookup_union_r; [done |]. by apply lookup_singleton_ne. }
  destruct q as [[row [err |]] | err]; simpl; (split; [reflexivity |]);
    intros row' Hq; by simplify_eq.
Qed.
End Update.

(** C5, witness: the sample backend refuses the nodes of [broken] and
    serves those of [c1]. *)
Lemma conversation_detail_two_step_witness :
  (run Sample.respond
     (app Sample.environment GET_db_conversations_id broken_detail_request) 0%nat).2
    = Returned (status_json 500 (error_body (VStr "permission denied for table nodes")))
  ∧ (run Sample.respond
       (app Sample.environment GET_db_conversations_id detail_request) 0%nat).2
    = Returned (res_json
        (VObj {[ "nodes" := VArr [VObj {[ "id" := VStr "nodes-1" ]}];
                 "messages" := VArr [VObj {[ "id" := VStr "messages-1" ]}] ]})).
Proof.
  split.
  - destruct (conversation_detail_two_step Sample.respond Sample.environment
                broken_detail_request 0%nat 1%nat 2%nat Sample.alice _
                eq_refl eq_refl eq_refl) as [Hfail _].
    destruct (Hfail _ eq_refl) as (tr & Hrun & _).
    exact (f_equal snd Hrun).
  - destruct (conversation_detail_two_step Sample.respond Sample.environment
                detail_request 0%nat 1%nat 2%nat Sample.alice _
                eq_refl eq_refl eq_refl) as [_ Hok].
    destruct (Hok _ _ 3%nat eq_refl eq_refl) as (tr & Hrun & _).
    exact (f_equal snd Hrun).
Defined.

(** C6, witness: the caller's 1999 timestamp is replaced by the
    sample clock's reading. *)
Lemma update_conversation_stamps_witness :
  ∃ sent,
    sent = <[ "updated_at" := VStr "2026-01-01T00:00:00.000Z" ]> (body archive_request)
    ∧ sent !! "updated_at" = Some (VStr "2026-01-01T00:00:00.000Z")
    ∧ (∀ k, k ≠ "updated_at" → sent !! k = body archive_request !! k)
    ∧ (run Sample.respond
         (app Sample.environment PATCH_db_conversations_id archive_request) 0%nat).1.1
        = [Ev (getUser (request_client Sample.environment archive_request))
              (Fulfilled {| Supabase.user := Some Sample.alice; Supabase.auth_error := None |});
           Ev toISOString "2026-01-01T00:00:00.000Z";
           Ev (update (request_client Sample.environment archive_request) "conversations"
                 sent (Supabase.eq "id" (VStr (id archive_request))))
              (Fulfilled {| Supabase.data := VNull; Supabase.error := None |})]
    ∧ ∀ row, Fulfilled {| Supabase.data := VNull; Supabase.error := None |}
             = Fulfilled {| Supabase.data := row; Supabase.error := None |} →
        (run Sample.respond
           (app Sample.environment PATCH_db_conversations_id archive_request) 0%nat).2
          = Returned (res_json success_body).
Proof.
  apply (update_conversation_stamps Sample.respond Sample.environment archive_request
           0%nat 1%nat 2%nat 3%nat Sample.alice).
  - reflexivity.
  - reflexivity.
  - reflexivity.
  - reflexivity.
Defined.

(** C7, witness: the extra [conversations_id] of the body is not
    forwarded. *)
Lemma update_node_title_only_witness :
  ∃ sent : gmap string value,
    sent = {[ "title" := field (body rename_request) "title" ]}
    ∧ dom sent = {[ "title" ]}
    ∧ (∀ k, k ≠ "title" → sent !! k = None)
    ∧ (∀ (row : gmap string value) k, k ≠ "title" → (sent ∪ row) !! k = row !! k)
    ∧ (run Sample.respond
         (app Sample.environment PATCH_db_nodes_id rename_request) 0%nat).1.1
        = [Ev (getUser (request_client Sample.environment rename_request))
              (Fulfilled {| Supabase.user := Some Sample.alice; Supabase.auth_error := None |});
           Ev (update (request_client Sample.environment rename_request) "nodes" sent
                 (Supabase.eq "id" (VStr (id rename_request))))
              (Fulfilled {| Supabase.data := VNull; Supabase.error := None |})]
    ∧ ∀ row, Fulfilled {| Supabase.data := VNull; Supabase.error := None |}
             = Fulfilled {| Supabase.data := row; Supabase.error := None |} →
        (run Sample.respond
           (app Sample.environment PATCH_db_nodes_id rename_request) 0%nat).2
          = Returned (res_json success_body).
Proof.
  apply (update_node_title_only Sample.respond Sample.environment rename_request
           0%nat 1%nat 2%nat Sample.alice).
  - reflexivity.
  - reflexivity.
  - reflexivity.
Defined.

(** ** Provider relays *)

Section Relay.
Context {W : Type} (respond : ∀ o : op, W → reply o * W).

(** C8.  When the provider call of a relay fails with [err], the
    response body is the relay's fixed message, which says nothing of
    [err]; the status is 500 on the OpenAI and Gemini relays, and on
    the OpenRouter relay it is [err.response?.status || 500]: the
    upstream status when the failure carries a response, 500 when it
    does not. *)
Theorem provider_failure_response (e : env) (rt : route) (req : request) (w : W)
    (err : js_error) :
  is_relay rt = true →
  provider_failures (run respond (app e rt req) w).1.1 = [err] →
  ∃ res,
    (run respond (app e rt req) w).2 = Returned res
    ∧ payload res
        = json (error_body (VStr match rt with
                                 | POST_openrouter_chat => "Failed to fetch from OpenRouter"
                                 | POST_openai_chat => "Failed to fetch from OpenAI"
                                 | _ => "Failed to fetch from Gemini"
                                 end))
    ∧ status res
        = match rt with
          | POST_openrouter_chat =>
              match response err with
              | Some upstream =>
                  if Axios.status upstream =? 0 then 500 else Axios.status upstream
              | None => 500
              end
          | _ => 500
          end.
Proof.
  intros Hrelay. destruct rt; try discriminate Hrelay; clear Hrelay; simpl.
  - unfold openrouter_chat. simpl.
    destruct (respond (axios_post _ _ _) w) as [[up | e1] w1]; simpl.
    + destruct (truthy (field (body req) "stream")); discriminate.
    + destruct (respond (console_error _) w1) as [[] w2]. simpl.
      intros [= ->]. by eexists.
  - unfold openai_chat. simpl.
    destruct (respond (openai_create _) w) as [[up | e1] w1]; simpl.
    + discriminate.
    + destruct (respond (console_error _) w1) as [[] w2]. simpl.
      intros [= ->]. by eexists.
  - unfold gemini_generate. simpl.
    destruct (spread _) as [entries | e0 | o k] eqn:Hspread; simpl.
    + destruct (respond (generateContent _) w) as [[up | e1] w1]; simpl.
      * discriminate.
      * destruct (respond (console_error _) w1) as [[] w2]. simpl.
        intros [= ->]. by eexists.
    + destruct (respond (console_error _) w) as [[] w2]. discriminate.
    + unfold spread in Hspread. by repeat case_match.
Qed.
End Relay.

(** C8, witness: the sample provider answers 429 with a payload. *)
Lemma provider_failure_response_witness :
  ∃ res,
    (run Sample.respond (app Sample.environment POST_openrouter_chat quota_request) 0%nat).2
      = Returned res
    ∧ payload res = json (error_body (VStr "Failed to fetch from OpenRouter"))
    ∧ status res = 429.
Proof.
  exact (provider_failure_response Sample.respond Sample.environment
           POST_openrouter_chat quota_request 0%nat (Sample.upstream_failure 429)
           eq_refl eq_refl).
Defined.

(** ** The Gemini relay *)

Section Gemini.
Context {W : Type} (respond : ∀ o : op, W → reply o * W).

Lemma spread_history (req : request) (entries : list value) :
  history_entries req = Some entries →
  spread (js_or (field (body req) "history") (VArr [])) = Ret entries.
Proof.
  unfold history_entries, js_or.
  destruct (field (body req) "history") as [| | b | n | s | items | o] eqn:Hh; simpl.
  - by intros [= <-].
  - by intros [= <-].
  - destruct b; [discriminate | by intros [= <-]].
  - destruct (n =? 0); [by intros [= <-] | discriminate].
  - intros [= <-]. by destruct s.
  - by intros [= <-].
  - discriminate.
Qed.

(** A [history] that cannot be iterated stops the relay before any
    provider call: the answer is the generic 500. *)
Lemma gemini_without_entries (e : env) (req : request) (w : W) :
  history_entries req = None →
  calls (run respond (app e POST_gemini_generate req) w).1.1
    = [console_error [VStr "Gemini Error:";
                      VStr "(intermediate value) is not iterable"]]
  ∧ (run respond (app e POST_gemini_generate req) w).2
    = Returned (status_json 500 (error_body (VStr "Failed to fetch from Gemini"))).
Proof.
  unfold history_entries. simpl. unfold gemini_generate, js_or.
  destruct (field (body req) "history") as [| | b | n | s | items | o] eqn:Hh; simpl;
    try discriminate.
  - destruct b; [| discriminate]. simpl.
    by destruct (respond (console_error _) w) as [[] w1].
  - destruct (n =? 0); [discriminate |]. simpl.
    by destruct (respond (console_error _) w) as [[] w1].
  - by destruct (respond (console_error _) w) as [[] w1].
Qed.

(** The relay reads [files] and does nothing with it: the program is
    the same whatever the field holds. *)
Lemma gemini_ignores_files (v : value) (req : request) :
  gemini_generate (with_files v req) = gemini_generate req.
Proof.
  unfold gemini_generate, with_files, field. simpl.
  by rewrite !lookup_insert_ne.
Qed.

(** C9.  On [POST /api/gemini/generate], when [history] is an array or
    absent, the one provider call has exactly the two parameters
    [model] and [contents]: the contents are the history entries
    followed by one user turn whose only part is the prompt text, and
    the model is the caller's or, when unspecified, the fallback
    [gemini-1.5-flash].  What [files] holds changes nothing.  On
    success the response is [{ text }] with the reply's text only. *)
Theorem gemini_contents (e : env) (req : request) (w w1 : W) (entries : list value)
    (g : settled generate_reply) :
  history_entries req = Some entries →
  respond (generateContent
             {[ "model" := js_or (field (body req) "model") (VStr "gemini-1.5-flash");
                "contents" :=
                  VArr (entries ++
                        [VObj {[ "role" := VStr "user";
                                 "parts" := VArr [VObj {[ "text" := field (body req) "prompt" ]}]
                              ]}]) ]}) w = (g, w1) →
  ∃ params : gmap string value,
    params !! "contents"
      = Some (VArr (entries ++
                    [VObj {[ "role" := VStr "user";
                             "parts" := VArr [VObj {[ "text" := field (body req) "prompt" ]}]
                          ]}]))
    ∧ params !! "model" = Some (js_or (field (body req) "model") (VStr "gemini-1.5-flash"))
    ∧ (body req !! "model" = None → params !! "model" = Some (VStr "gemini-1.5-flash"))
    ∧ dom params = {[ "model"; "contents" ]}
    ∧ (run respond (app e POST_gemini_generate req) w).1.1 !! 0%nat
        = Some (Ev (generateContent params) g)
    ∧ (∀ v, app e POST_gemini_generate (with_files v req) = app e POST_gemini_generate req)
    ∧ ∀ t, g = Fulfilled t →
        run respond (app e POST_gemini_generate req) w
          = ([Ev (generateContent params) g], w1,
             Returned (res_json (VObj {[ "text" := text t ]}))).
Proof.
  intros Hhist Hcall.
  exists {[ "model" := js_or (field (body req) "model") (VStr "gemini-1.5-flash");
            "contents" :=
              VArr (entries ++
                    [VObj {[ "role" := VStr "user";
                             "parts" := VArr [VObj {[ "text" := field (body req) "prompt" ]}]
                          ]}]) ]}.
  split; [by rewrite lookup_insert_ne, lookup_singleton_eq |].
  split; [by rewrite lookup_insert_eq |].
  split.
  { intros Hnone. rewrite lookup_insert_eq. unfold field. by rewrite Hnone. }
  split; [by rewrite dom_insert_L, dom_singleton_L |].
  split.
  { simpl. unfold gemini_generate.
    rewrite (spread_history req entries Hhist). simpl. rewrite Hcall.
    destruct g as [t | err]; simpl; [done |].
    by destruct (respond (console_error _) w1) as [[] w2]. }
  split; [intros v; apply gemini_ignores_files |].
  intros t ->. simpl. unfold gemini_generate.
  rewrite (spread_history req entries Hhist). simpl. by rewrite Hcall.
Qed.
End Gemini.

(** C9, witness: one turn of history, no model, some files. *)
Lemma gemini_contents_witness :
  ∃ params : gmap string value,
    params !! "contents"
      = Some (VArr ([VObj {[ "role" := VStr "model";
                             "parts" := VArr [VObj {[ "text" := VStr "Hi" ]}] ]}] ++
                    [VObj {[ "role" := VStr "user";
                             "parts" := VArr [VObj {[ "text" := field (body gemini_request) "prompt" ]}]
                          ]}]))
    ∧ params !! "model"
        = Some (js_or (field (body gemini_request) "model") (VStr "gemini-1.5-flash"))
    ∧ (body gemini_request !! "model" = None →
       params !! "model" = Some (VStr "gemini-1.5-flash"))
    ∧ dom params = {[ "model"; "contents" ]}
    ∧ (run Sample.respond (app Sample.environment POST_gemini_generate gemini_request)
         0%nat).1.1 !! 0%nat
        = Some (Ev (generateContent params) (Fulfilled {| text := VStr "generated" |}))
    ∧ (∀ v, app Sample.environment POST_gemini_generate (with_files v gemini_request)
            = app Sample.environment POST_gemini_generate gemini_request)
    ∧ ∀ t, Fulfilled {| text := VStr "generated" |} = Fulfilled t →
        run Sample.respond (app Sample.environment POST_gemini_generate gemini_request) 0%nat
          = ([Ev (generateContent params) (Fulfilled {| text := VStr "generated" |})], 1%nat,
             Returned (res_json (VObj {[ "text" := text t ]}))).
Proof.
  apply (gemini_contents Sample.respond Sample.environment gemini_request 0%nat 1%nat).
  - reflexivity.
  - reflexivity.
Defined.

(** ** Reading the token from the header *)

Lemma split_no_space (s : string) :
  no_space s = true → split " " s = [s].
Proof.
  induction s as [| c s IH]; simpl; [done |].
  intros [Hc Hs]%andb_true_iff. apply negb_true_iff in Hc.
  by rewrite Hc, (IH Hs).
Qed.

Lemma split_first_segment (a b : string) :
  no_space a = true → split " " (a +:+ " " +:+ b) = a :: split " " b.
Proof.
  induction a as [| c a IH]; [done |].
  intros [Hc Ha]%andb_true_iff. apply negb_true_iff in Hc.
  change (String c a +:+ " " +:+ b) with (String c (a +:+ " " +:+ b)).
  cbn [split]. by rewrite Hc, (IH Ha).
Qed.

(** The guard reads what the shape of the header says. *)
Lemma bearer_token_of_header (req : request) (tok : value) :
  header_token (authorization req) tok → bearer_token req = tok.
Proof.
  unfold bearer_token.
  destruct 1 as [| h Hh | scheme token Hs Ht | scheme token rest Hs Ht].
  - reflexivity.
  - by rewrite (split_no_space h Hh).
  - by rewrite (split_first_segment scheme token Hs), (split_no_space token Ht).
  - by rewrite (split_first_segment scheme _ Hs), (split_first_segment token rest Ht).
Qed.

Section Header.
Context {W : Type} (respond : ∀ o : op, W → reply o * W).

(** With a token, the first thing a guarded route does is the
    identity verification under that token. *)
Lemma guard_first_call (e : env) (handler : authenticated → prog http_response)
    (req : request) (w : W) :
  truthy (bearer_token req) = true →
  ∃ r tr,
    (run respond (with_auth e handler req) w).1.1
      = Ev (getUser (request_client e req)) r :: tr.
Proof.
  intros Htok. unfold with_auth. rewrite run_bind.
  unfold authenticateUser. rewrite Htok. simpl. fold (request_client e req).
  destruct (respond (getUser (request_client e req)) w) as [[[u err] | err] w1]; simpl.
  - destruct err as [err |], u as [u |]; simpl.
    + destruct (respond (console_error _) w1) as [[] w2]. by do 2 eexists.
    + destruct (respond (console_error _) w1) as [[] w2]. by do 2 eexists.
    + destruct (run respond (handler _) w1) as [[tr w2] out]. by do 2 eexists.
    + destruct (respond (console_error _) w1) as [[] w2]. by do 2 eexists.
  - destruct (respond (console_error _) w1) as [[] w2]. by do 2 eexists.
Qed.

(** C10 (as the code has it).  The guard does not look at the scheme.
    The token is the text between the first space of the header and
    the next space, if any: with a token there, whatever the scheme,
    the route goes on to the identity verification under
    [Bearer <token>]; a header that is absent, has no space, or has
    nothing between its first space and the next yields no token and
    the answer is 401 without any backend call. *)
Theorem guard_token_extraction (e : env) (rt : route) (req : request) (w : W)
    (tok : value) :
  is_db_route rt = true →
  header_token (authorization req) tok →
  bearer_token req = tok
  ∧ if truthy tok then
      ∃ r tr,
        (run respond (app e rt req) w).1.1
          = Ev (getUser (createClient (SUPABASE_URL e) (SUPABASE_KEY e)
                           (Some ("Bearer " +:+ display tok)))) r :: tr
    else
      (run respond (app e rt req) w).2
        = Returned (status_json 401 (error_body (VStr "Unauthorized")))
      ∧ backend_calls (run respond (app e rt req) w).1.1 = [].
Proof.
  intros Hdb Hshape. destruct (db_route_guarded rt Hdb) as [handler ->].
  pose proof (bearer_token_of_header req tok Hshape) as Htok.
  split; [exact Htok |].
  destruct (truthy tok) eqn:Htruthy.
  - rewrite <- Htok in *. by apply guard_first_call.
  - rewrite <- Htok in Htruthy. by rewrite (with_auth_no_token respond _ _ _ _ Htruthy).
Qed.
End Header.

(** C10, witness: the scheme [Basic] goes through to the identity
    verification. *)
Lemma guard_token_extraction_witness :
  bearer_token basic_scheme_request = VStr "alice-token"
  ∧ ∃ r tr,
      (run Sample.respond (app Sample.environment GET_db_conversations basic_scheme_request)
         0%nat).1.1
        = Ev (getUser (createClient "https://db.example" "anon-key"
                         (Some "Bearer alice-token"))) r :: tr.
Proof.
  apply (guard_token_extraction Sample.respond Sample.environment GET_db_conversations
           basic_scheme_request 0%nat (VStr "alice-token")).
  - reflexivity.
  - apply (header_two_words "Basic" "alice-token"); reflexivity.
Defined.

(** C10, as stated, fails: the text after the first space is
    [abc def], the token verified is [abc]. *)
Lemma token_stops_at_second_space :
  authorization spaced_token_request = Some "Bearer abc def"
  ∧ after_first_space "Bearer abc def" = Some "abc def"
  ∧ bearer_token spaced_token_request = VStr "abc"
  ∧ backend_calls (Sample.serve GET_db_conversations spaced_token_request).1
      = [getUser (createClient "https://db.example" "anon-key" (Some "Bearer abc"))]
  ∧ bearer_token spaced_token_request ≠ VStr "abc def".
Proof.
  split; [reflexivity |]. split; [reflexivity |]. split; [reflexivity |].
  split; [reflexivity |]. discriminate.
Qed.

(** ** The configuration endpoint *)

(** The endpoint answers without any call, with the two fields [url]
    and [key] taken from the environment as they are. *)
Lemma run_supabase_config {W : Type} (respond : ∀ o : op, W → reply o * W)
    (e : env) (req : request) (w : W) :
  run respond (app e GET_config_supabase req) w
    = ([], w, Returned (res_json (VObj {[ "url" := VStr (SUPABASE_URL e);
                                          "key" := VStr (SUPABASE_KEY e) ]}))).
Proof. reflexivity. Qed.

(** C2 (the code at the failing input).  In a deployment whose
    [SUPABASE_KEY] is the service key, the endpoint answers with
    exactly [url] and [key], and the key it hands out is that service
    key: the very key the server's own backend clients are built
    with. *)
Theorem config_exposes_configured_key :
  (run Sample.respond (app service_deployment GET_config_supabase stale_request) 0%nat).2
    = Returned (res_json (VObj {[ "url" := VStr "https://db.example";
                                  "key" := VStr "service-role-key" ]}))
  ∧ dom ({[ "url" := VStr "https://db.example";
            "key" := VStr "service-role-key" ]} : gmap string value)
      = {[ "url"; "key" ]}
  ∧ Supabase.supabaseKey (request_client service_deployment detail_request)
      = "service-role-key".
Proof.
  split; [by rewrite run_supabase_config |].
  split; [by rewrite dom_insert_L, dom_singleton_L |].
  reflexivity.
Qed.

(** * Route-wide properties *)

(** ** What holds of a program holds of each of its runs *)

Lemma upholds_run {W : Type} (respond : ∀ o : op, W → reply o * W) {A : Type}
    (P : op → Prop) (Q : A → Prop) (E : js_error → Prop) (p : prog A) (w : W) :
  upholds P Q E p →
  Forall P (calls (run respond p w).1.1)
  ∧ match (run respond p w).2 with
    | Returned a => Q a
    | Uncaught e => E e
    end.
Proof.
  revert w. induction p as [a | e | o k IH]; intros w; simpl.
  - by split; [constructor |].
  - by split; [constructor |].
  - intros [Ho Hk]. destruct (respond o w) as [r w1].
    destruct (IH r w1 (Hk r)) as [Hcalls Hout].
    destruct (run respond (k r) w1) as [[tr w2] out]. simpl in *.
    split; [by constructor | done].
Qed.

Lemma no_backend_calls (tr : list event) :
  Forall (λ o, is_backend_call o = false) (calls tr) → backend_calls tr = [].
Proof.
  unfold backend_calls. induction 1 as [| o l Ho Hl IH]; [done |].
  rewrite filter_cons_False; [exact IH | by rewrite Ho].
Qed.

(** Unfold every handler down to its calls. *)
Ltac all_handlers :=
  unfold app, with_auth, authenticateUser, openrouter_chat, openai_chat, gemini_generate,
    list_conversations, conversation_detail, create_conversation, create_node,
    create_message, report_bug, create_row, update_node_title, update_conversation,
    delete_conversation, supabase_config, health, relay_error, spread, js_or, deref.

(** Case analysis on every reply a program branches on. *)
Ltac reply_cases :=
  match goal with
  | r : settled _ |- _ => destruct r as [? | ?]
  | r : Supabase.user_reply |- _ => destruct r as [[? |] [? |]]
  | r : Supabase.reply _ |- _ => destruct r as [? [? |]]
  | r : option (list _) |- _ => destruct r as [? |]
  | r : unit |- _ => destruct r
  end.

(** Walk a program through all its branches. *)
Ltac walk :=
  repeat first
    [ progress (simpl in * )
    | progress (unfold mbind, prog_bind, mret, prog_ret, await, throw_if, call, deref)
    | split
    | intros ?
    | reply_cases
    | case_match
    | done ].

(** Walk a run through all the replies of the backend. *)
Ltac run_walk respond :=
  repeat first
    [ progress (simpl in * )
    | progress (unfold mbind, prog_bind, mret, prog_ret, await, throw_if, call, deref)
    | match goal with
      | |- context [respond ?o ?w] => destruct (respond o w) as [? ?]
      end
    | reply_cases
    | case_match ].

Lemma routes_use_request_client (e : env) (rt : route) (req : request) :
  upholds (λ o, from_option (λ c, c = request_client e req ∧ c ≠ supabase e) True
                  (op_client o))
          (λ _, True) (λ _, True) (app e rt req).
Proof. destruct rt; all_handlers; walk. Qed.

Lemma unguarded_routes_static (e : env) (rt : route) (req : request) :
  is_db_route rt = false →
  upholds (λ o, is_backend_call o = false) (λ _, True) (λ _, True) (app e rt req).
Proof. destruct rt; intros Hdb; try discriminate Hdb; all_handlers; walk. Qed.

Lemma db_routes_static (e : env) (rt : route) (req : request) :
  is_db_route rt = true →
  upholds (λ o, is_provider_call o = false) (λ _, True) (λ _, True) (app e rt req).
Proof. destruct rt; intros Hdb; try discriminate Hdb; all_handlers; walk. Qed.

Lemma get_routes_static (e : env) (rt : route) (req : request) :
  is_get rt = true →
  upholds (λ o, is_write o = false) (λ _, True) (λ _, True) (app e rt req).
Proof. destruct rt; intros Hget; try discriminate Hget; all_handlers; walk. Qed.


Section Routes.
Context {W : Type} (respond : ∀ o : op, W → reply o * W).

(** X1.  Whatever the route, the request and the backend, every call
    that reaches the identity or data backend goes through the client
    built for this request, which carries the request's own bearer
    token; the admin client created at start-up is never used. *)
Theorem backend_calls_use_request_client (e : env) (rt : route) (req : request) (w : W) :
  Forall (λ o, from_option (λ c, c = request_client e req ∧ c ≠ supabase e) True
                 (op_client o))
         (calls (run respond (app e rt req) w).1.1).
Proof. exact (proj1 (upholds_run respond _ _ _ _ w (routes_use_request_client e rt req))). Qed.

(** X2.  The routes outside [/api/db/] never call the identity or
    data backend, and they never look at the [Authorization] header
    or the path id: the same body gets the same program. *)
Theorem unguarded_routes_skip_backend (e : env) (rt : route) (req : request) (w : W) :
  is_db_route rt = false →
  backend_calls (run respond (app e rt req) w).1.1 = []
  ∧ ∀ auth i, app e rt (readdressed auth i req) = app e rt req.
Proof.
  intros Hdb. split.
  - apply no_backend_calls.
    exact (proj1 (upholds_run respond _ _ _ _ w (unguarded_routes_static e rt req Hdb))).
  - intros auth i. by destruct rt.
Qed.

(** X3.  The routes under [/api/db/] never call an AI provider. *)
Theorem db_routes_skip_providers (e : env) (rt : route) (req : request) (w : W) :
  is_db_route rt = true →
  Forall (λ o, is_provider_call o = false) (calls (run respond (app e rt req) w).1.1).
Proof.
  intros Hdb.
  exact (proj1 (upholds_run respond _ _ _ _ w (db_routes_static e rt req Hdb))).
Qed.

(** X4.  The GET routes are read-only: none of them ever inserts,
    updates or deletes. *)
Theorem get_routes_read_only (e : env) (rt : route) (req : request) (w : W) :
  is_get rt = true →
  Forall (λ o, is_write o = false) (calls (run respond (app e rt req) w).1.1).
Proof.
  intros Hget.
  exact (proj1 (upholds_run respond _ _ _ _ w (get_routes_static e rt req Hget))).
Qed.

End Routes.

(** X2, witness: the Gemini relay of the sample deployment. *)
Lemma unguarded_routes_skip_backend_witness :
  backend_calls (run Sample.respond
                   (app Sample.environment POST_gemini_generate gemini_request) 0%nat).1.1
    = []
  ∧ ∀ auth i,
      app Sample.environment POST_gemini_generate (readdressed auth i gemini_request)
      = app Sample.environment POST_gemini_generate gemini_request.
Proof.
  apply (unguarded_routes_skip_backend Sample.respond Sample.environment
           POST_gemini_generate gemini_request 0%nat).
  reflexivity.
Defined.

(** X3, witness: creating a conversation in the sample deployment. *)
Lemma db_routes_skip_providers_witness :
  Forall (λ o, is_provider_call o = false)
         (calls (run Sample.respond
                   (app Sample.environment POST_db_conversations forged_owner_request)
                   0%nat).1.1).
Proof.
  apply (db_routes_skip_providers Sample.respond Sample.environment
           POST_db_conversations forged_owner_request 0%nat).
  reflexivity.
Defined.

(** X4, witness: reading a conversation in the sample deployment. *)
Lemma get_routes_read_only_witness :
  Forall (λ o, is_write o = false)
         (calls (run Sample.respond
                   (app Sample.environment GET_db_conversations_id detail_request)
                   0%nat).1.1).
Proof.
  apply (get_routes_read_only Sample.respond Sample.environment
           GET_db_conversations_id detail_request 0%nat).
  reflexivity.
Defined.

(** ** The guard when the identity backend cannot be reached *)

Section Outage.
Context {W : Type} (respond : ∀ o : op, W → reply o * W).

Lemma with_auth_unreachable (e : env) (handler : authenticated → prog http_response)
    (req : request) (w w1 : W) (err : js_error) :
  truthy (bearer_token req) = true →
  respond (getUser (request_client e req)) w = (Rejected err, w1) →
  run respond (with_auth e handler req) w =
    ([Ev (getUser (request_client e req)) (Rejected err);
      Ev (console_error [VStr "[AUTH] Auth system error:"; message err]) tt],
     (respond (console_error [VStr "[AUTH] Auth system error:"; message err]) w1).2,
     Returned (status_json 500 (error_body (VStr "Internal Auth Error")))).
Proof.
  intros Htok Hget. unfold with_auth. rewrite run_bind.
  unfold authenticateUser. rewrite Htok. simpl. fold (request_client e req).
  rewrite Hget. simpl.
  by destruct (respond (console_error _) w1) as [[] w2].
Qed.

(** X6.  When a token is present and the identity verification itself
    fails (the promise rejects), a database route answers 500 with the
    fixed body [{ error: 'Internal Auth Error' }]; the failure's
    message goes to the console only, and the handler is not executed:
    the run is the same for every handler behind the guard. *)
Theorem auth_system_error (e : env) (rt : route) (req : request) (w w1 : W)
    (err : js_error) :
  is_db_route rt = true →
  truthy (bearer_token req) = true →
  respond (getUser (request_client e req)) w = (Rejected err, w1) →
  ∃ tr w2,
    tr = [Ev (getUser (request_client e req)) (Rejected err);
          Ev (console_error [VStr "[AUTH] Auth system error:"; message err]) tt]
    ∧ run respond (app e rt req) w
        = (tr, w2, Returned (status_json 500 (error_body (VStr "Internal Auth Error"))))
    ∧ ∀ handler,
        run respond (with_auth e handler req) w
        = (tr, w2, Returned (status_json 500 (error_body (VStr "Internal Auth Error")))).
Proof.
  intros Hdb Htok Hget. destruct (db_route_guarded rt Hdb) as [handler ->].
  do 2 eexists. split; [reflexivity |]. split.
  - apply (with_auth_unreachable _ _ _ _ _ _ Htok Hget).
  - intros h. apply (with_auth_unreachable _ _ _ _ _ _ Htok Hget).
Qed.

(** X7.  On a database route no data operation is attempted unless
    the request carried a token and the identity backend accepted it:
    a run with any data operation starts with that accepted
    verification. *)
Theorem data_operation_needs_identity (e : env) (rt : route) (req : request) (w : W) :
  is_db_route rt = true →
  data_operations (run respond (app e rt req) w).1.1 ≠ [] →
  truthy (bearer_token req) = true
  ∧ ∃ u rest,
      (run respond (app e rt req) w).1.1
        = Ev (getUser (request_client e req))
             (Fulfilled {| Supabase.user := Some u; Supabase.auth_error := None |}) :: rest.
Proof.
  intros Hdb. destruct (db_route_guarded rt Hdb) as [handler ->].
  destruct (truthy (bearer_token req)) eqn:Htok.
  - destruct (respond (getUser (request_client e req)) w) as [[[u err] | err] w1] eqn:Hget.
    + destruct err as [err |].
      * rewrite (with_auth_rejected respond _ handler _ _ _ _ Htok Hget); [done |].
        left. by eexists.
      * destruct u as [u |].
        -- rewrite (with_auth_accepted respond _ handler _ _ _ _ Htok Hget).
           destruct (run respond (handler _) w1) as [[tr w2] out]. simpl.
           intros _. split; [done |]. by do 2 eexists.
        -- rewrite (with_auth_rejected respond _ handler _ _ _ _ Htok Hget); [done |].
           by right.
    + by rewrite (with_auth_unreachable _ handler _ _ _ _ Htok Hget).
  - by rewrite (with_auth_no_token respond _ handler _ _ Htok).
Qed.

(** X8.  On every database route, when a data operation of the run
    fails with [err] (its promise rejects or its reply carries an
    error), the answer is 500 with the body [{ error: err.message }]. *)
Theorem data_failure_relayed (e : env) (rt : route) (req : request) (w : W)
    (err : js_error) :
  is_db_route rt = true →
  err ∈ omap data_failure (run respond (app e rt req) w).1.1 →
  (run respond (app e rt req) w).2 = Returned (status_json 500 (error_body (message err))).
Proof.
  intros Hdb. destruct rt; try discriminate Hdb; clear Hdb; all_handlers.
  all: run_walk respond.
  all: try (intros Hin%elem_of_nil; done).
  all: intros Hin%list_elem_of_singleton; by subst.
Qed.
End Outage.

(** X6, witness: the sample deployment with its identity service
    unreachable. *)
Lemma auth_system_error_witness :
  ∃ tr w2,
    tr = [Ev (getUser (request_client Sample.environment detail_request))
             (Rejected {| message := VStr "fetch failed"; response := None |});
          Ev (console_error [VStr "[AUTH] Auth system error:"; VStr "fetch failed"]) tt]
    ∧ run outage_respond (app Sample.environment GET_db_conversations detail_request) 0%nat
        = (tr, w2, Returned (status_json 500 (error_body (VStr "Internal Auth Error"))))
    ∧ ∀ handler,
        run outage_respond (with_auth Sample.environment handler detail_request) 0%nat
        = (tr, w2, Returned (status_json 500 (error_body (VStr "Internal Auth Error")))).
Proof.
  apply (auth_system_error outage_respond Sample.environment GET_db_conversations
           detail_request 0%nat 1%nat).
  - reflexivity.
  - reflexivity.
  - reflexivity.
Defined.

(** X7, witness: the insert of the sample run follows the accepted
    verification. *)
Lemma data_operation_needs_identity_witness :
  truthy (bearer_token forged_owner_request) = true
  ∧ ∃ u rest,
      (run Sample.respond
         (app Sample.environment POST_db_conversations forged_owner_request) 0%nat).1.1
        = Ev (getUser (request_client Sample.environment forged_owner_request))
             (Fulfilled {| Supabase.user := Some u; Supabase.auth_error := None |}) :: rest.
Proof.
  apply (data_operation_needs_identity Sample.respond Sample.environment
           POST_db_conversations forged_owner_request 0%nat).
  - reflexivity.
  - vm_compute. discriminate.
Defined.

(** X8, witness: the sample backend refuses bug reports. *)
Lemma data_failure_relayed_witness :
  (run Sample.respond (app Sample.environment POST_db_bugs forged_owner_request) 0%nat).2
    = Returned (status_json 500 (error_body (VStr "relation does not exist"))).
Proof.
  apply (data_failure_relayed Sample.respond Sample.environment POST_db_bugs
           forged_owner_request 0%nat
           {| message := VStr "relation does not exist"; response := None |}).
  - reflexivity.
  - vm_compute. left.
Defined.

(** ** Reading and deleting conversations *)

Section Conversations.
Context {W : Type} (respond : ∀ o : op, W → reply o * W).

(** X9.  On [DELETE /api/db/conversations/:id], behind a verified
    identity, the run makes one data operation: the delete of the
    conversations whose [id] is the path id.  Nodes and messages are
    not touched, the request body is not read, and the answer is
    [{ success: true }], or 500 with the backend's message when the
    delete fails. *)
Theorem delete_conversation_alone (e : env) (req : request) (w w1 w2 : W)
    (u : gmap string value) (q : settled (Supabase.reply value)) :
  truthy (bearer_token req) = true →
  respond (getUser (request_client e req)) w
    = (Fulfilled {| Supabase.user := Some u; Supabase.auth_error := None |}, w1) →
  respond (delete_ (request_client e req) "conversations"
             (Supabase.eq "id" (VStr (id req)))) w1 = (q, w2) →
  data_operations (run respond (app e DELETE_db_conversations_id req) w).1.1
    = [delete_ (request_client e req) "conversations" (Supabase.eq "id" (VStr (id req)))]
  ∧ (run respond (app e DELETE_db_conversations_id req) w).2
    = Returned match failure q with
               | Some err => status_json 500 (error_body (message err))
               | None => res_json success_body
               end
  ∧ ∀ b, run respond (app e DELETE_db_conversations_id (with_body b req)) w
         = run respond (app e DELETE_db_conversations_id req) w.
Proof.
  intros Htok Hget Hdel. split; [| split].
  - simpl. rewrite (with_auth_accepted respond _ _ _ _ _ _ Htok Hget).
    unfold delete_conversation. simpl. rewrite Hdel.
    by destruct q as [[row [err |]] | err].
  - simpl. rewrite (with_auth_accepted respond _ _ _ _ _ _ Htok Hget).
    unfold delete_conversation. simpl. rewrite Hdel.
    by destruct q as [[row [err |]] | err].
  - intros b. clear. unfold with_body. all_handlers. unfold bearer_token.
    run_walk respond; reflexivity.
Qed.

(** X10.  On [GET /api/db/conversations], behind a verified identity,
    the one data operation selects every column of every
    conversation the backend lets the caller see, newest update
    first, without any filter of the server's own; the rows come back
    to the caller as the backend returned them, in the same order,
    and a failure comes back as 500 with the backend's message. *)
Theorem list_conversations_relay (e : env) (req : request) (w w1 w3 : W)
    (u : gmap string value)
    (q : settled (Supabase.reply (option (list (gmap string value))))) :
  truthy (bearer_token req) = true →
  respond (getUser (request_client e req)) w
    = (Fulfilled {| Supabase.user := Some u; Supabase.auth_error := None |}, w1) →
  respond (select (request_client e req) "conversations" "*" []
             (Some {| Supabase.column := "updated_at"; Supabase.ascending := false |}))
          (respond (console_log
                      [VStr ("[DB] Fetching conversations for: "
                             +:+ display (field u "email"))]) w1).2
    = (q, w3) →
  data_operations (run respond (app e GET_db_conversations req) w).1.1
    = [select (request_client e req) "conversations" "*" []
         (Some {| Supabase.column := "updated_at"; Supabase.ascending := false |})]
  ∧ (∀ rows, q = Fulfilled {| Supabase.data := Some rows; Supabase.error := None |} →
       (run respond (app e GET_db_conversations req) w).2
         = Returned (res_json (VArr (VObj <$> rows))))
  ∧ (∀ err, failure q = Some err →
       (run respond (app e GET_db_conversations req) w).2
         = Returned (status_json 500 (error_body (message err)))).
Proof.
  intros Htok Hget Hsel. simpl.
  rewrite (with_auth_accepted respond _ _ _ _ _ _ Htok Hget).
  unfold list_conversations. simpl.
  destruct (respond (console_log _) w1) as [[] w2]. simpl in *. rewrite Hsel.
  split; [| split].
  - destruct q as [[[rows |] [err |]] | err]; simpl;
      repeat (match goal with
              | |- context [respond ?o ?s] => destruct (respond o s) as [[] ?]
              end; simpl); reflexivity.
  - intros rows ->. simpl.
    by destruct (respond (console_log _) w3) as [[] w4].
  - intros err Herr. destruct q as [[rows [e1 |]] | e1]; simplify_eq/=.
    + by destruct (respond (console_error _) w3) as [[] w4].
    + by destruct (respond (console_error _) w3) as [[] w4].
Qed.

(** X11.  On [GET /api/db/conversations/:id], behind a verified
    identity and after the node fetch returned [nodes], the messages
    are asked for by the ids of exactly those nodes, in their order
    (an empty list when there are no nodes), ordered by [ordinal]
    ascending; when that second fetch fails the answer is 500 with its
    error message, and the nodes already fetched are not returned. *)
Theorem conversation_detail_message_failure (e : env) (req : request) (w w1 w2 w3 : W)
    (u : gmap string value) (nodes : list (gmap string value))
    (rm : settled (Supabase.reply (option (list (gmap string value)))))
    (err : js_error) :
  truthy (bearer_token req) = true →
  respond (getUser (request_client e req)) w
    = (Fulfilled {| Supabase.user := Some u; Supabase.auth_error := None |}, w1) →
  respond (select (request_client e req) "nodes" "*"
             [Supabase.eq "conversations_id" (VStr (id req))] None) w1
    = (Fulfilled {| Supabase.data := Some nodes; Supabase.error := None |}, w2) →
  respond (select (request_client e req) "messages" "*"
             [Supabase.in_ "nodes_id" ((λ node, field node "id") <$> nodes)]
             (Some {| Supabase.column := "ordinal"; Supabase.ascending := true |})) w2
    = (rm, w3) →
  failure rm = Some err →
  data_operations (run respond (app e GET_db_conversations_id req) w).1.1
    = [select (request_client e req) "nodes" "*"
         [Supabase.eq "conversations_id" (VStr (id req))] None;
       select (request_client e req) "messages" "*"
         [Supabase.in_ "nodes_id" ((λ node, field node "id") <$> nodes)]
         (Some {| Supabase.column := "ordinal"; Supabase.ascending := true |})]
  ∧ (run respond (app e GET_db_conversations_id req) w).2
    = Returned (status_json 500 (error_body (message err))).
Proof.
  intros Htok Hget Hnodes Hmsgs Herr. simpl.
  rewrite (with_auth_accepted respond _ _ _ _ _ _ Htok Hget).
  unfold conversation_detail. simpl. rewrite Hnodes. simpl. rewrite Hmsgs.
  destruct rm as [[rows [e1 |]] | e1]; by simplify_eq/=.
Qed.
End Conversations.

(** X9, witness: the sample user deletes a conversation. *)
Lemma delete_conversation_alone_witness :
  data_operations (run Sample.respond
                     (app Sample.environment DELETE_db_conversations_id detail_request)
                     0%nat).1.1
    = [delete_ (request_client Sample.environment detail_request) "conversations"
         (Supabase.eq "id" (VStr (id detail_request)))]
  ∧ (run Sample.respond
       (app Sample.environment DELETE_db_conversations_id detail_request) 0%nat).2
    = Returned (res_json success_body)
  ∧ ∀ b, run Sample.respond
           (app Sample.environment DELETE_db_conversations_id (with_body b detail_request))
           0%nat
         = run Sample.respond
             (app Sample.environment DELETE_db_conversations_id detail_request) 0%nat.
Proof.
  apply (delete_conversation_alone Sample.respond Sample.environment detail_request
           0%nat 1%nat 2%nat Sample.alice
           (Fulfilled {| Supabase.data := VNull; Supabase.error := None |})).
  - reflexivity.
  - reflexivity.
  - reflexivity.
Defined.

(** X10, witness: the sample user lists the conversations. *)
Lemma list_conversations_relay_witness :
  (run Sample.respond (app Sample.environment GET_db_conversations detail_request) 0%nat).2
    = Returned (res_json (VArr [VObj {[ "id" := VStr "conversations-1" ]}])).
Proof.
  destruct (list_conversations_relay Sample.respond Sample.environment detail_request
              0%nat 1%nat 3%nat Sample.alice _ eq_refl eq_refl eq_refl)
    as (_ & Hrows & _).
  exact (Hrows _ eq_refl).
Defined.

(** X11, witness: the sample deployment with its messages table
    refused. *)
Lemma conversation_detail_message_failure_witness :
  data_operations (run messages_down_respond
                     (app Sample.environment GET_db_conversations_id detail_request)
                     0%nat).1.1
    = [select (request_client Sample.environment detail_request) "nodes" "*"
         [Supabase.eq "conversations_id" (VStr (id detail_request))] None;
       select (request_client Sample.environment detail_request) "messages" "*"
         [Supabase.in_ "nodes_id"
            ((λ node, field node "id") <$> [ {[ "id" := VStr "nodes-1" ]} ])]
         (Some {| Supabase.column := "ordinal"; Supabase.ascending := true |})]
  ∧ (run messages_down_respond
       (app Sample.environment GET_db_conversations_id detail_request) 0%nat).2
    = Returned (status_json 500 (error_body (VStr "permission denied for table messages"))).
Proof.
  apply (conversation_detail_message_failure messages_down_respond Sample.environment
           detail_request 0%nat 1%nat 2%nat 3%nat Sample.alice
           [ {[ "id" := VStr "nodes-1" ]} ]
           (Fulfilled {| Supabase.data := None;
                         Supabase.error :=
                           Some {| message := VStr "permission denied for table messages";
                                   response := None |} |})
           {| message := VStr "permission denied for table messages"; response := None |}).
  - reflexivity.
  - reflexivity.
  - reflexivity.
  - reflexivity.
  - reflexivity.
Defined.

(** ** The relays when the provider answers *)

Section Providers.
Context {W : Type} (respond : ∀ o : op, W → reply o * W).

(** X12.  The OpenRouter relay starts with one POST to the
    completions endpoint carrying exactly [model], [messages] and
    [stream]: the first two as the caller gave them, [stream] as given
    when truthy and [false] otherwise; any other body field is
    dropped.  It asks for a stream exactly when [stream] is truthy.
    When the provider answers, that is the only call: a streamed
    answer is piped to the caller under the three event-stream
    headers, any other answer is relayed as the JSON it is. *)
Theorem openrouter_relays_upstream (e : env) (req : request) (w : W) :
  ∃ (sent : gmap string value) cfg r rest,
    (run respond (app e POST_openrouter_chat req) w).1.1
      = Ev (axios_post "https://openrouter.ai/api/v1/chat/completions" sent cfg) r :: rest
    ∧ dom sent = {[ "model"; "messages"; "stream" ]}
    ∧ sent !! "model" = Some (field (body req) "model")
    ∧ sent !! "messages" = Some (field (body req) "messages")
    ∧ sent !! "stream"
        = Some (if truthy (field (body req) "stream")
                then field (body req) "stream" else VBool false)
    ∧ Axios.responseType cfg
        = (if truthy (field (body req) "stream") then "stream" else "json")
    ∧ ∀ up, r = Fulfilled up →
        rest = []
        ∧ (run respond (app e POST_openrouter_chat req) w).2
          = Returned
              (if truthy (field (body req) "stream")
               then {| status := 200;
                       headers := [("Content-Type", "text/event-stream");
                                   ("Cache-Control", "no-cache");
                                   ("Connection", "keep-alive")];
                       payload := pipe (Axios.data up) |}
               else res_json (Axios.data up)).
Proof.
  simpl. unfold openrouter_chat. simpl.
  destruct (respond (axios_post _ _ _) w) as [r w1] eqn:Hpost.
  destruct r as [up | err]; simpl.
  - destruct (truthy (field (body req) "stream")) eqn:Hstream; simpl;
      do 4 eexists; (split; [reflexivity |]);
      (split; [by rewrite !dom_insert_L, dom_singleton_L |]);
      (split; [by rewrite lookup_insert_eq |]);
      (split; [by rewrite lookup_insert_ne, lookup_insert_eq |]);
      (split; [by rewrite !lookup_insert_ne, lookup_singleton_eq; unfold js_or;
                  rewrite ?Hstream |]);
      (split; [reflexivity |]); by intros up' [= <-].
  - destruct (respond (console_error _) w1) as [[] w2]. simpl.
    do 4 eexists. split; [reflexivity |].
    split; [by rewrite !dom_insert_L, dom_singleton_L |].
    split; [by rewrite lookup_insert_eq |].
    split; [by rewrite lookup_insert_ne, lookup_insert_eq |].
    split; [by rewrite !lookup_insert_ne, lookup_singleton_eq |].
    split; [reflexivity |]. discriminate.
Qed.

(** X13.  The OpenAI relay starts with one chat-completion call
    carrying exactly [model] and [messages] as the caller gave them;
    any other body field is dropped.  When the provider answers, that
    is the only call and the completion is relayed as it is. *)
Theorem openai_relays_completion (e : env) (req : request) (w : W) :
  ∃ (params : gmap string value) r rest,
    (run respond (app e POST_openai_chat req) w).1.1
      = Ev (openai_create params) r :: rest
    ∧ dom params = {[ "model"; "messages" ]}
    ∧ params !! "model" = Some (field (body req) "model")
    ∧ params !! "messages" = Some (field (body req) "messages")
    ∧ ∀ completion, r = Fulfilled completion →
        rest = []
        ∧ (run respond (app e POST_openai_chat req) w).2 = Returned (res_json completion).
Proof.
  simpl. unfold openai_chat. simpl.
  destruct (respond (openai_create _) w) as [r w1] eqn:Hcall.
  destruct r as [completion | err]; simpl.
  - do 3 eexists. split; [reflexivity |].
    split; [by rewrite dom_insert_L, dom_singleton_L |].
    split; [by rewrite lookup_insert_eq |].
    split; [by rewrite lookup_insert_ne, lookup_singleton_eq |].
    by intros c [= <-].
  - destruct (respond (console_error _) w1) as [[] w2]. simpl.
    do 3 eexists. split; [reflexivity |].
    split; [by rewrite dom_insert_L, dom_singleton_L |].
    split; [by rewrite lookup_insert_eq |].
    split; [by rewrite lookup_insert_ne, lookup_singleton_eq |].
    discriminate.
Qed.
End Providers.

(** X14.  When [history] is neither absent, an array nor a string (a
    number, [true], an object), the Gemini relay makes no provider
    call at all and answers 500 with its generic message. *)
Theorem gemini_uniterable_history (e : env) (req : request)
    {W : Type} (respond : ∀ o : op, W → reply o * W) (w : W) :
  history_entries req = None →
  Forall (λ o, is_provider_call o = false)
         (calls (run respond (app e POST_gemini_generate req) w).1.1)
  ∧ (run respond (app e POST_gemini_generate req) w).2
    = Returned (status_json 500 (error_body (VStr "Failed to fetch from Gemini"))).
Proof.
  intros Hnone.
  destruct (gemini_without_entries respond e req w Hnone) as [Hcalls Hout].
  rewrite Hcalls. split; [by repeat constructor | exact Hout].
Qed.

(** X14, witness: a [history] that is a number. *)
Lemma gemini_uniterable_history_witness :
  Forall (λ o, is_provider_call o = false)
         (calls (run Sample.respond
                   (app Sample.environment POST_gemini_generate uniterable_history_request)
                   0%nat).1.1)
  ∧ (run Sample.respond
       (app Sample.environment POST_gemini_generate uniterable_history_request) 0%nat).2
    = Returned (status_json 500 (error_body (VStr "Failed to fetch from Gemini"))).
Proof.
  apply (gemini_uniterable_history Sample.environment uniterable_history_request
           Sample.respond 0%nat).
  reflexivity.
Defined.

(** ** The token and the header built from it *)

Lemma split_segments_space_free (s : string) :
  Forall (λ seg, no_space seg = true) (split " " s).
Proof.
  induction s as [| c s IH]; simpl.
  - by repeat constructor.
  - destruct (Ascii.eqb c " ") eqn:Hc.
    + by constructor.
    + destruct (split " " s) as [| seg segs].
      * repeat constructor. simpl. by rewrite Hc.
      * inversion IH as [| ? ? Hseg Hsegs]; subst.
        constructor; [| done]. simpl. by rewrite Hc, Hseg.
Qed.

(** X15.  Whatever the [Authorization] header, the token the guard
    reads from it never contains a space. *)
Theorem bearer_token_space_free (req : request) (t : string) :
  bearer_token req = VStr t → no_space t = true.
Proof.
  unfold bearer_token.
  destruct (authorization req) as [header |]; [| discriminate].
  destruct (split " " header !! 1%nat) as [seg |] eqn:Hseg; [| discriminate].
  intros [= <-].
  eapply (Forall_lookup_1 _ _ _ _ (split_segments_space_free header) Hseg).
Qed.

(** X15, witness: the header [Bearer abc def]. *)
Lemma bearer_token_space_free_witness : no_space "abc" = true.
Proof.
  apply (bearer_token_space_free spaced_token_request "abc").
  reflexivity.
Defined.

(** X16.  A well-formed header, [Bearer <token>] with a non-empty
    token free of spaces, reaches the backend unchanged: the client
    built for the request carries that very header. *)
Theorem bearer_header_forwarded (e : env) (req : request) (token : string) :
  no_space token = true →
  token ≠ "" →
  authorization req = Some ("Bearer " +:+ token) →
  truthy (bearer_token req) = true
  ∧ Supabase.Authorization (request_client e req) = authorization req.
Proof.
  intros Hfree Hne Hauth.
  assert (Htok : bearer_token req = VStr token).
  { apply bearer_token_of_header. rewrite Hauth.
    by apply (header_two_words "Bearer" token). }
  unfold request_client. rewrite Htok, Hauth. simpl. split; [| done].
  apply negb_true_iff, String.eqb_neq, Hne.
Qed.

(** X16, witness: the sample user's header. *)
Lemma bearer_header_forwarded_witness :
  truthy (bearer_token detail_request) = true
  ∧ Supabase.Authorization (request_client Sample.environment detail_request)
    = authorization detail_request.
Proof.
  apply (bearer_header_forwarded Sample.environment detail_request "alice-token").
  - reflexivity.
  - discriminate.
  - reflexivity.
Defined.

(** ** What one request can cost *)

Section Budget.
Context {W : Type} (respond : ∀ o : op, W → reply o * W).

(** X17.  A database route that answers 401 has not read or written
    anything: no data operation was attempted in that run. *)
Theorem unauthorized_means_untouched (e : env) (rt : route) (req : request) (w : W)
    (res : http_response) :
  is_db_route rt = true →
  (run respond (app e rt req) w).2 = Returned res →
  status res = 401 →
  data_operations (run respond (app e rt req) w).1.1 = [].
Proof.
  intros Hdb. destruct rt; try discriminate Hdb; clear Hdb; all_handlers.
  all: run_walk respond.
  all: intros [= <-]; done.
Qed.

(** X18.  Whatever the route, the request and the backend, one
    request costs at most one identity verification and at most one
    write: nothing is retried, nothing is written twice. *)
Theorem one_verification_one_write (e : env) (rt : route) (req : request) (w : W) :
  (length (identity_calls (run respond (app e rt req) w).1.1) ≤ 1)%nat
  ∧ (length (writes (run respond (app e rt req) w).1.1) ≤ 1)%nat.
Proof.
  destruct rt; all_handlers.
  all: run_walk respond.
  all: simplify_eq; split; vm_compute; lia.
Qed.
End Budget.

(** X17, witness: the stale token of the sample deployment. *)
Lemma unauthorized_means_untouched_witness :
  data_operations
    (run Sample.respond (app Sample.environment POST_db_nodes stale_request) 0%nat).1.1
  = [].
Proof.
  apply (unauthorized_means_untouched Sample.respond Sample.environment POST_db_nodes
           stale_request 0%nat (status_json 401 (error_body (VStr "Invalid token")))).
  - reflexivity.
  - reflexivity.
  - reflexivity.
Defined.
